(** * PheWAS notebooks of PIC-SURE_API-BioDataCatalyst-examples

    A shallow embedding of the analysis cells of the three Python notebooks
    (py_PICSURE-API_101_PheWAS_example.ipynb, its later revision, and
    PheWAS_py.ipynb): the cohort filter, the three per-variable screening
    loops (Mann-Whitney U, Fisher exact, logistic-regression likelihood
    ratio), the Bonferroni cell and the table handed to the Manhattan plot.

    Conventions.
    - A pandas DataFrame is its row index (subject ids) together with a
      finite map from column names to columns; a column is a list of cells.
    - A Python dict of p-values is a [gmap string fval].
    - A float is [fval]: NaN, the two infinities, or a finite value, the
      finite values being exact rationals (rounding is not modelled).
    - A Python exception is a constructor of [exn]; a cell of the notebook
      that can raise returns [res].  A loop that mutates a dict returns the
      dict as it stands when the loop ends or is aborted, with the exception
      that aborted it, if any.
    - scipy's and statsmodels' tests are parameters of the development: the
      notebooks only call them. *)

From Stdlib Require Import QArith Qcanon.
From stdpp Require Import base numbers option list sorting gmap strings.

(** ** Python values *)

Inductive exn :=
  | ValueError | KeyError | IndexError | TypeError | AttributeError
  | ZeroDivisionError | LinAlgError | PerfectSeparationError.

Inductive res (A : Type) :=
  | Ok (a : A)
  | Raise (e : exn).
Arguments Ok {A} a.
Arguments Raise {A} e.

Definition bind {A B} (x : res A) (f : A -> res B) : res B :=
  match x with
  | Ok a => f a
  | Raise e => Raise e
  end.

Notation "'do' x <- c ; k" := (bind c (fun x => k))
  (at level 10, x name, c at level 100, k at level 200, only parsing).
Notation "'do' '_' <- c ; k" := (bind c (fun _ => k))
  (at level 10, c at level 100, k at level 200, only parsing).

(** numpy / Python floats *)
Inductive fval :=
  | NaN
  | PInf
  | NInf
  | Fin (q : Qc).

#[global] Instance exn_eq_dec : EqDecision exn.
Proof. solve_decision. Defined.
#[global] Instance fval_eq_dec : EqDecision fval.
Proof. solve_decision. Defined.

(** [pd.isna] on a float *)
Definition isna (x : fval) : bool :=
  match x with NaN => true | _ => false end.

(** A cell of the cohort matrix: an observed string or number, or missing. *)
Inductive cell :=
  | Missing
  | Str (s : string)
  | Num (q : Qc).

#[global] Instance cell_eq_dec : EqDecision cell.
Proof. solve_decision. Defined.

Definition notna (c : cell) : bool :=
  match c with Missing => false | _ => true end.

(** An element of an object array such as [variablesDict["dummies_varName"].values]:
    a string, or the float NaN (or None) a join leaves where nothing matched. *)
Inductive pyobj :=
  | PyStr (s : string)
  | PyFloat (x : fval)
  | PyNone.

#[global] Instance pyobj_eq_dec : EqDecision pyobj.
Proof. solve_decision. Defined.

(** ** Data frames *)

Record frame := Frame {
  index : list nat;                       (* subject ids, one per row *)
  columns : gmap string (list cell)
}.

(** [df[name]]: KeyError when the column does not exist *)
Definition getcol (df : frame) (name : string) : res (list cell) :=
  match columns df !! name with
  | Some c => Ok c
  | None => Raise KeyError
  end.

(** boolean-mask row selection on one column *)
Fixpoint select {A} (mask : list bool) (col : list A) : list A :=
  match mask, col with
  | b :: mask', x :: col' =>
      if b then x :: select mask' col' else select mask' col'
  | _, _ => []
  end.

(** [df.loc[mask, :]] *)
Definition loc_rows (mask : list bool) (df : frame) : frame :=
  Frame (select mask (index df)) (select mask <$> columns df).

(** [series.isin(vals)]: a missing cell is in no list of strings *)
Definition isin (vals : list string) (c : cell) : bool :=
  match c with
  | Str s => bool_decide (s ∈ vals)
  | _ => false
  end.

(** Order on cells used to sort group keys and table labels: numbers before
    strings, numbers by value, strings lexicographically. *)
Definition cell_leb (a b : cell) : bool :=
  match a, b with
  | Missing, _ => true
  | _, Missing => false
  | Num x, Num y => bool_decide (x <= y)%Qc
  | Num _, Str _ => true
  | Str _, Num _ => false
  | Str s, Str t => String.leb s t
  end.

Definition cell_le (a b : cell) : Prop := cell_leb a b = true.

#[global] Instance cell_le_dec : RelDecision cell_le.
Proof. intros a b. unfold cell_le. apply _. Defined.

(** [series.dropna()] *)
Definition dropna (col : list cell) : list cell :=
  filter (fun c => notna c = true) col.

(** The sorted distinct non-missing values of a column: the keys of
    [groupby], the categories of [astype("category")], the labels of
    [crosstab], the entries of [value_counts]. *)
Definition unique_sorted (col : list cell) : list cell :=
  merge_sort cell_le (remove_dups (dropna col)).

Definition count_of (k : cell) (col : list cell) : nat :=
  length (filter (fun c => c = k) col).

(** [series.value_counts().tolist()]: one count per distinct observed value.
    pandas lists them by decreasing count; the notebooks only use how many
    there are, so they are kept in key order here. *)
Definition value_counts (col : list cell) : list nat :=
  (fun k => count_of k col) <$> unique_sorted col.

(** [str.format] on a template with the fields 0 and 1, given the unpacked
    list: it needs two positional arguments. *)
Definition format_two (args : list nat) : res unit :=
  match args with
  | _ :: _ :: _ => Ok ()
  | _ => Raise IndexError
  end.

(** ** Cohort filter

    [mask_dependent_var_name = facts[dependent_var_name].isin(["Case", "Control"])]
    [facts = facts.loc[mask_dependent_var_name, :]]
    and the print of the two counts of [facts[dependent_var_name].value_counts().tolist()],
    unpacked into a template with the fields 0 and 1. *)

Definition kept_categories : list string := ["Case"; "Control"]%string.

Definition mask_dependent_var_name (facts : frame) (dependent_var_name : string)
  : res (list bool) :=
  do col <- getcol facts dependent_var_name ;
  Ok (isin kept_categories <$> col).

Definition cohort_filter (facts : frame) (dependent_var_name : string) : res frame :=
  do mask <- mask_dependent_var_name facts dependent_var_name ;
  Ok (loc_rows mask facts).

(** the whole cell, with its print *)
Definition filter_cell (facts : frame) (dependent_var_name : string) : res frame :=
  do facts' <- cohort_filter facts dependent_var_name ;
  do col' <- getcol facts' dependent_var_name ;
  do _ <- format_two (value_counts col') ;
  Ok facts'.

(** ** groupby and crosstab *)

(** the rows of [col] whose grouping value is [k] *)
Definition group_rows (k : cell) (depcol col : list cell) : list cell :=
  select ((fun c => bool_decide (c = k)) <$> depcol) col.

(** iterating [facts.groupby(dep)[var]]: one (key, series) pair per observed
    grouping value, keys sorted *)
Definition grouped (depcol col : list cell) : list (cell * list cell) :=
  (fun k => (k, group_rows k depcol col)) <$> unique_sorted depcol.

(** the pairs of two aligned columns where both are observed *)
Definition both_observed (a b : list cell) : list (cell * cell) :=
  filter (fun p => notna p.1 && notna p.2 = true) (zip a b).

Record crosstab_t := Crosstab {
  row_labels : list cell;
  col_labels : list cell;
  counts : list (list nat)
}.

(** [pd.crosstab(a, b)] *)
Definition crosstab (a b : list cell) : crosstab_t :=
  let ps := both_observed a b in
  let rl := unique_sorted ps.*1 in
  let cl := unique_sorted ps.*2 in
  Crosstab rl cl
    ((fun r => (fun c => length (filter (fun p => p = (r, c)) ps)) <$> cl) <$> rl).

Definition shape (ct : crosstab_t) : nat * nat :=
  (length (row_labels ct), length (col_labels ct)).

(** ** The variable dictionary *)

Record dict_row := DictRow {
  varName : string;
  dummies_varName : pyobj;
  simplified_varName : string;
  categorical : bool;
  group : string
}.

(** [simple_index_variablesDict.loc[var, "categorical"]]; variable names are
    the unique keys of the dictionary *)
Definition is_categorical (variablesDict : list dict_row) (var : string) : res bool :=
  match List.find (fun r => bool_decide (varName r = var)) variablesDict with
  | Some r => Ok (categorical r)
  | None => Raise KeyError
  end.

(** [l.remove(x)]: drops the first occurrence, ValueError when there is none *)
Fixpoint list_remove (x : string) (l : list string) : res (list string) :=
  match l with
  | [] => Raise ValueError
  | y :: l' =>
      if bool_decide (y = x) then Ok l'
      else (do r <- list_remove x l' ; Ok (y :: r))
  end.

(** ** The statistics libraries

    What the notebooks import and call: [scipy.stats.mannwhitneyu],
    [scipy.stats.fisher_exact] (odds ratio and p-value),
    [statsmodels ... Logit] with [fit] and [llr_pvalue], and [np.log10] on
    positive finite floats. *)
Class StatsLib := {
  mannwhitneyu : list cell -> list cell -> res fval;
  fisher_exact : crosstab_t -> res (fval * fval);
  logit_model : Type;
  Logit : list Z -> list (list cell) -> res logit_model;
  fit_llr_pvalue : logit_model -> res fval;
  log10 : Qc -> Qc
}.

(** A loop [for x in items: body] over a dict that the body mutates: the dict
    when the loop ends, and the exception that ended it early, if any. *)
Fixpoint for_each {A} (step : A -> gmap string fval -> res (gmap string fval))
    (items : list A) (dic : gmap string fval) : gmap string fval * option exn :=
  match items with
  | [] => (dic, None)
  | x :: rest =>
      match step x dic with
      | Ok dic' => for_each step rest dic'
      | Raise e => (dic, Some e)
      end
  end.

(** column labels of the two-column sub-table and of its indicator columns *)
Inductive colname :=
  | Plain (name : string)
  | Dummy (name : string) (level : cell).

#[global] Instance colname_eq_dec : EqDecision colname.
Proof. solve_decision. Defined.

Section Screener.
Context {lib : StatsLib}.

(** ** Mann-Whitney U loop (continuous variables)

    [grouped = facts_dummies.groupby(dependent_var_name)], then for each
    [var] of [continuous_varnames]:
    [group1, group2 = [group[1].dropna() for group in grouped[var]]] and,
    under [try], [dic_mannwhitneyu[var] = stats.mannwhitneyu(group1, group2).pvalue],
    with [except ValueError: dic_mannwhitneyu[var] = np.NaN].
    The unpacking into two names is outside the [try]. *)
Definition mannwhitneyu_step (facts_dummies : frame) (depcol : list cell)
    (var : string) (dic : gmap string fval) : res (gmap string fval) :=
  do col <- getcol facts_dummies var ;
  match (fun g => dropna g.2) <$> grouped depcol col with
  | [group1; group2] =>
      match mannwhitneyu group1 group2 with
      | Ok p => Ok (<[var := p]> dic)
      | Raise ValueError => Ok (<[var := NaN]> dic)
      | Raise e => Raise e
      end
  | _ => Raise ValueError
  end.

Definition dic_mannwhitneyu (facts_dummies : frame) (dependent_var_name : string)
    (continuous_varnames : list string) : gmap string fval * option exn :=
  match getcol facts_dummies dependent_var_name with
  | Raise e => (∅, Some e)
  | Ok depcol =>
      for_each (mannwhitneyu_step facts_dummies depcol) continuous_varnames ∅
  end.

(** ** Fisher exact loop (dummy columns of the categorical variables)

    For each [var] of [dummy_categorical_varnames]: [continue] when
    [type(var) != str], [continue] when [var not in facts_dummies.columns];
    then [crosstab = pd.crosstab(facts_dummies[var], facts_dummies[dependent_var_name])],
    [dic_fisher[var] = np.NaN] when [crosstab.shape == (1,2)], and
    [dic_fisher[var] = stats.fisher_exact(crosstab)[1]] otherwise. *)
Definition fisher_step (facts_dummies : frame) (dependent_var_name : string)
    (var : pyobj) (dic : gmap string fval) : res (gmap string fval) :=
  match var with
  | PyStr v =>
      match columns facts_dummies !! v with
      | None => Ok dic
      | Some col =>
          do depcol <- getcol facts_dummies dependent_var_name ;
          let ct := crosstab col depcol in
          if bool_decide (shape ct = (1, 2)%nat) then Ok (<[v := NaN]> dic)
          else (do r <- fisher_exact ct ; Ok (<[v := r.2]> dic))
      end
  | _ => Ok dic
  end.

Definition dic_fisher (facts_dummies : frame) (dependent_var_name : string)
    (dummy_categorical_varnames : list pyobj) : gmap string fval * option exn :=
  for_each (fisher_step facts_dummies dependent_var_name)
    dummy_categorical_varnames ∅.

(** The first notebook takes the first 500 names only and wraps the loop in
    [try ... except AttributeError]. *)
Definition dic_fisher_101 (facts_dummies : frame) (dependent_var_name : string)
    (dummy_categorical_varnames : list pyobj) : gmap string fval * option exn :=
  match dic_fisher facts_dummies dependent_var_name
          (take 500 dummy_categorical_varnames) with
  | (dic, Some AttributeError) => (dic, None)
  | r => r
  end.

(** ** Likelihood-ratio loop (PheWAS_py.ipynb) *)

(** [pd.get_dummies(matrix, columns=[var], drop_first=False)]: the other
    columns, then one 0/1 column per observed level of [var], levels sorted *)
Definition get_dummies (var : string) (col : list cell)
  : list (colname * list cell) :=
  (fun l => (Dummy var l,
             (fun c => if bool_decide (c = l) then Num 1 else Num 0) <$> col))
    <$> unique_sorted col.

(** [series.cat.codes]: position of the value among the categories, -1 when
    it is not one of them *)
Fixpoint code_of (k : cell) (categories : list cell) (i : Z) : Z :=
  match categories with
  | [] => (-1)%Z
  | c :: cs => if bool_decide (c = k) then i else code_of k cs (i + 1)%Z
  end.

Definition cat_codes (categories col : list cell) : list Z :=
  (fun c => code_of c categories 0%Z) <$> col.

Definition lookup_col (m : list (colname * list cell)) (n : colname)
  : res (list cell) :=
  match List.find (fun p => bool_decide (p.1 = n)) m with
  | Some p => Ok p.2
  | None => Raise KeyError
  end.

(** What the loop body hands to [Logit]: [matrix], the two columns with the
    rows where either is missing dropped; nothing when [matrix.shape[0] == 0];
    for a categorical variable its indicator columns, [.iloc[:, 0:-1]]
    dropping the last column; [dependent_var], the category codes of the
    grouping column (categories fixed by [astype("category")] on the
    filtered cohort); [independent_var], the other columns and an intercept
    column of ones. *)
Definition llr_design (facts : frame) (dependent_var_name : string)
    (variablesDict : list dict_row) (independent_varName : string)
  : res (option (list Z * list (list cell))) :=
  do depcol <- getcol facts dependent_var_name ;
  do varcol <- getcol facts independent_varName ;
  let rows := both_observed depcol varcol in
  if bool_decide (length rows = 0%nat) then Ok None
  else
    do cat <- is_categorical variablesDict independent_varName ;
    let matrix :=
      if cat
      then removelast ((Plain dependent_var_name, rows.*1)
                         :: get_dummies independent_varName rows.*2)
      else [(Plain dependent_var_name, rows.*1);
            (Plain independent_varName, rows.*2)] in
    do dep' <- lookup_col matrix (Plain dependent_var_name) ;
    let dependent_var := cat_codes (unique_sorted depcol) dep' in
    let independent_var :=
      (filter (fun p => p.1 <> Plain dependent_var_name) matrix).*2
        ++ [replicate (length rows) (Num 1)] in
    Ok (Some (dependent_var, independent_var)).

(** The body of the loop over [independent_varNames]: NaN and [continue] on
    an empty [matrix]; otherwise [model = Logit(dependent_var, independent_var)],
    built outside the [try], then [model.fit(disp=0)] and [llr_pvalue] inside
    it, with [except (LinAlgError, PerfectSeparationError)] storing NaN. *)
Definition llr_step (facts : frame) (dependent_var_name : string)
    (variablesDict : list dict_row)
    (independent_varName : string) (dic : gmap string fval)
  : res (gmap string fval) :=
  do design <- llr_design facts dependent_var_name variablesDict independent_varName ;
  match design with
  | None => Ok (<[independent_varName := NaN]> dic)
  | Some (dependent_var, independent_var) =>
      do model <- Logit dependent_var independent_var ;
      match fit_llr_pvalue model with
      | Ok p => Ok (<[independent_varName := p]> dic)
      | Raise LinAlgError | Raise PerfectSeparationError =>
          Ok (<[independent_varName := NaN]> dic)
      | Raise e => Raise e
      end
  end.

(** [independent_varNames = variablesDict["varName"].tolist()],
    [independent_varNames.remove(dependent_var_name)], [dic_pvalues = {}]
    and the loop *)
Definition dic_pvalues_llr (facts : frame) (dependent_var_name : string)
    (variablesDict : list dict_row) : gmap string fval * option exn :=
  match list_remove dependent_var_name (varName <$> variablesDict) with
  | Raise e => (∅, Some e)
  | Ok independent_varNames =>
      for_each (llr_step facts dependent_var_name variablesDict)
        independent_varNames ∅
  end.

End Screener.

(** ** Joining the p-values to the variable dictionary *)

Record joined_row := JoinedRow {
  jrow : dict_row;
  jpvalues : fval
}.

(** [{**dic_mannwhitneyu, **dic_fisher}]: the right dict wins on a shared key *)
Definition merge_dicts (d1 d2 : gmap string fval) : gmap string fval := d2 ∪ d1.

(** Modelled from the spec: [joining_variablesDict_onCol] of python_lib/utils.py
    is not among the sources. The notebooks call it to add the p-values as
    a new column of [variablesDict] (the spec's result table, variable id to
    p-value): every row of the dictionary is kept, with the p-value recorded
    under its key, and a missing value where the key is not a string or has
    no record. [df_pvalues], built from the dict with its keys as a column,
    is the dict itself here. *)
Definition joined_pvalue (df_pvalues : gmap string fval) (key : pyobj) : fval :=
  match key with
  | PyStr k => default NaN (df_pvalues !! k)
  | _ => NaN
  end.

Definition joining_variablesDict_onCol (variablesDict : list dict_row)
    (df_pvalues : gmap string fval) (left_col : dict_row -> pyobj)
  : list joined_row :=
  (fun r => JoinedRow r (joined_pvalue df_pvalues (left_col r))) <$> variablesDict.

(** ** Bonferroni cell *)

Record result_row := ResultRow {
  row : dict_row;
  pvalues : fval;
  p_adj : fval;
  log_p : fval
}.

Definition Qc_of_nat (n : nat) : Qc := Q2Qc (inject_Z (Z.of_nat n)).

(** the literal [0.05] *)
Definition alpha : Qc := Q2Qc (5 # 100).

(** numpy division of a float by an integer count (no exception on zero) *)
Definition fdiv_len (x : fval) (n : nat) : fval :=
  match x with
  | Fin q =>
      match n with
      | O => if bool_decide (0 < q)%Qc then PInf
             else if bool_decide (q < 0)%Qc then NInf else NaN
      | _ => Fin (q / Qc_of_nat n)
      end
  | _ => x
  end.

Section Report.
Context {lib : StatsLib}.

(** [-np.log10(x)] *)
Definition neg_log10 (x : fval) : fval :=
  match x with
  | NaN => NaN
  | PInf => NInf
  | NInf => NaN
  | Fin q =>
      if bool_decide (0 < q)%Qc then Fin (- log10 q)
      else if bool_decide (q = 0)%Qc then PInf else NaN
  end.

(** [adjusted_alpha = 0.05/len(variablesDict["pvalues"])]: Python division,
    ZeroDivisionError on an empty table *)
Definition adjusted_alpha (variablesDict : list joined_row) : res fval :=
  match length variablesDict with
  | O => Raise ZeroDivisionError
  | n => Ok (Fin (alpha / Qc_of_nat n))
  end.

(** [variablesDict["p_adj"] = variablesDict["pvalues"] / len(variablesDict["pvalues"])]
    [variablesDict['log_p'] = -np.log10(variablesDict['pvalues'])]
    The sort by index and the group label that follow change no value of
    these columns and are left out. *)
Definition add_p_adj_log_p (variablesDict : list joined_row) : list result_row :=
  (fun r =>
     ResultRow (jrow r) (jpvalues r)
       (fdiv_len (jpvalues r) (length variablesDict))
       (neg_log10 (jpvalues r))) <$> variablesDict.

Definition bonferroni_cell (variablesDict : list joined_row)
  : res (fval * list result_row) :=
  do a <- adjusted_alpha variablesDict ;
  Ok (a, add_p_adj_log_p variablesDict).

(** ** Table handed to the Manhattan plot

    [mask = variablesDict["pvalues"].isna()]
    [df_results = variablesDict.loc[~mask,:].copy().replace([np.inf, -np.inf], np.nan)]
    [df_results = df_results.loc[~df_results["log_p"].isna().values,:]] *)

Definition replace_inf (x : fval) : fval :=
  match x with
  | PInf | NInf => NaN
  | _ => x
  end.

Definition replace_inf_row (r : result_row) : result_row :=
  ResultRow (row r) (replace_inf (pvalues r)) (replace_inf (p_adj r))
    (replace_inf (log_p r)).

Definition df_results (variablesDict : list result_row) : list result_row :=
  let df := replace_inf_row
              <$> filter (fun r => isna (pvalues r) = false) variablesDict in
  filter (fun r => isna (log_p r) = false) df.

(** The cells from the dict of p-values to the plotted table. *)
Definition report (variablesDict : list dict_row) (dic_pvalues : gmap string fval)
    (left_col : dict_row -> pyobj) : res (fval * list result_row) :=
  do r <- bonferroni_cell
            (joining_variablesDict_onCol variablesDict dic_pvalues left_col) ;
  Ok (r.1, df_results r.2).

End Report.

(** ** Further cells of the notebooks *)

(** *** Preparing the cohort and the dictionary

    [status_var = variablesDict.loc[variablesDict.index.get_level_values(2) == 'Affection status', "varName"]]
    [facts = facts.dropna(subset=status_var).set_index("Patient ID")]
    The field [group] of a dictionary row is the level 2 of its index. The
    index of a [frame] holds the patient ids from the start, so [set_index]
    changes nothing here. *)

Definition status_var (variablesDict : list dict_row) : list string :=
  varName <$> filter (fun r => group r = "Affection status"%string) variablesDict.

(** [[df[name] for name in names]], KeyError at the first missing column *)
Fixpoint getcols (df : frame) (names : list string) : res (list (list cell)) :=
  match names with
  | [] => Ok []
  | n :: names' =>
      do c <- getcol df n ;
      do cs <- getcols df names' ;
      Ok (c :: cs)
  end.

(** the rows, out of [n], where every one of the columns is observed *)
Fixpoint all_notna (cols : list (list cell)) (n : nat) : list bool :=
  match cols with
  | [] => replicate n true
  | c :: cs => zip_with andb (notna <$> c) (all_notna cs n)
  end.

(** [df.dropna(subset=names)] *)
Definition dropna_subset (facts : frame) (subset : list string) : res frame :=
  do cols <- getcols facts subset ;
  Ok (loc_rows (all_notna cols (length (index facts))) facts).

(** a frame whose columns all have one cell per row of the index *)
Definition rectangular (df : frame) : Prop :=
  ∀ name col, columns df !! name = Some col → length col = length (index df).

(** *** Selecting the variables by type and the grouping trait

    [mask_categories = variablesDict.loc[:, "categorical"] == True]
    [categorical_varnames = variablesDict.loc[mask_categories, "varName"].tolist()]
    [continuous_varnames = variablesDict.loc[~mask_categories, "varName"].tolist()] *)

Definition categorical_varnames (variablesDict : list dict_row) : list string :=
  varName <$> filter (fun r => categorical r = true) variablesDict.

Definition continuous_varnames (variablesDict : list dict_row) : list string :=
  varName <$> filter (fun r => categorical r ≠ true) variablesDict.

(** [variablesDict.loc[variablesDict["simplified_varName"] == "Affection status", "varName"].values[0]]:
    the first row with that simplified name, IndexError when there is none *)
Definition dependent_var_name_of (variablesDict : list dict_row) : res string :=
  match filter (fun r => simplified_varName r = "Affection status"%string)
          variablesDict with
  | r :: _ => Ok (varName r)
  | [] => Raise IndexError
  end.

(** the two cells together, ending with
    [categorical_varnames.remove(dependent_var_name)]: the grouping trait,
    the categorical names without it, the continuous names *)
Definition typing_cells (variablesDict : list dict_row)
  : res (string * (list string * list string)) :=
  do dep <- dependent_var_name_of variablesDict ;
  do cat <- list_remove dep (categorical_varnames variablesDict) ;
  Ok (dep, (cat, continuous_varnames variablesDict)).

(** *** Indicator columns of the Fisher notebooks

    [facts_dummies = pd.get_dummies(facts, columns=categorical_varnames, drop_first=True)]
    replaces each categorical column by one 0/1 column per observed level,
    the first level left out; these are the columns made from one of them. *)
Definition get_dummies_drop_first (var : string) (col : list cell)
  : list (colname * list cell) :=
  drop 1 (get_dummies var col).

(** The Fisher loop reads these columns under their labels. The label [k]
    names an indicator column of the variable [v]: the column of the matrix
    [facts_dummies] under [k], when there is one, is one of the columns that
    [get_dummies] makes from the column [v] of the cohort [facts]. *)
Definition indicator_column_of (facts facts_dummies : frame) (v k : string)
  : Prop :=
  ∀ col, columns facts_dummies !! k = Some col →
    ∃ c d, columns facts !! v = Some c
           ∧ d ∈ get_dummies_drop_first v c ∧ d.2 = col.

(** the sum of the cells of a contingency table *)
Definition table_total (ct : crosstab_t) : nat :=
  sum_list (sum_list <$> counts ct).

(** *** The cell that merges the two dicts

    [dic_pvalues = {**dic_mannwhitneyu, **dic_fisher}] after the two loops *)
Definition dic_pvalues_merged `{lib : StatsLib} (facts_dummies : frame)
    (dependent_var_name : string) (continuous_varnames : list string)
    (dummy_categorical_varnames : list pyobj) : gmap string fval :=
  merge_dicts
    (dic_mannwhitneyu facts_dummies dependent_var_name continuous_varnames).1
    (dic_fisher facts_dummies dependent_var_name dummy_categorical_varnames).1.

(** the same cell in the first notebook, after its Fisher cell *)
Definition dic_pvalues_merged_101 `{lib : StatsLib} (facts_dummies : frame)
    (dependent_var_name : string) (continuous_varnames : list string)
    (dummy_categorical_varnames : list pyobj) : gmap string fval :=
  merge_dicts
    (dic_mannwhitneyu facts_dummies dependent_var_name continuous_varnames).1
    (dic_fisher_101 facts_dummies dependent_var_name dummy_categorical_varnames).1.

(** *** The plotted table of the first notebook, and the labels

    The first notebook stops after the replacement of the infinities:
    [df_results = variablesDict.loc[~mask,:].copy().replace([np.inf, -np.inf], np.nan)] *)
Definition df_results_101 (variablesDict : list result_row) : list result_row :=
  replace_inf_row <$> filter (fun r => isna (pvalues r) = false) variablesDict.

(** [x >= y] as [sort_values] orders floats, NaN after every number *)
Definition fval_geb (x y : fval) : bool :=
  match x, y with
  | _, NaN => true
  | NaN, _ => false
  | PInf, _ => true
  | _, PInf => false
  | _, NInf => true
  | NInf, _ => false
  | Fin a, Fin b => bool_decide (b <= a)%Qc
  end.

Definition fval_ge (x y : fval) : Prop := fval_geb x y = true.

#[global] Instance fval_ge_dec : RelDecision fval_ge.
Proof. intros x y. unfold fval_ge. apply _. Defined.

(** the float comparison [x > y]: false as soon as one side is NaN *)
Definition fval_gtb (x y : fval) : bool :=
  match x, y with
  | NaN, _ | _, NaN => false
  | _, _ => negb (fval_geb y x)
  end.

(** [df_results["log_p"].sort_values(ascending=False)[0:6][-1]]: the last of
    the six largest values, IndexError on an empty column *)
Definition threshold_top_values (log_p_column : list fval) : res fval :=
  match last (take 6 (merge_sort fval_ge log_p_column)) with
  | Some t => Ok t
  | None => Raise IndexError
  end.

(** the rows for which [row["log_p"] > threshold_top_values] holds, those
    that get a text label *)
Definition labelled (threshold : fval) (df : list result_row) : list result_row :=
  filter (fun r => fval_gtb (log_p r) threshold = true) df.

(** float addition of a finite number *)
Definition fadd (x : fval) (q : Qc) : fval :=
  match x with
  | Fin a => Fin (a + q)
  | _ => x
  end.

(** The inner loop of the first notebook over the rows of one group, each
    row with its [ind]: [shift] is 1.1 when [pair_ind] is even and -1.1
    otherwise, a labelled row puts its text at
    [(ind + 3, log_p + 0.05 + shift)] and increments [pair_ind]. *)
Definition shift_of (pair_ind : nat) : Qc :=
  if Nat.even pair_ind then Q2Qc (11 # 10) else (- Q2Qc (11 # 10))%Qc.

Fixpoint label_texts_101 (threshold : fval) (rows : list (nat * result_row))
    (pair_ind : nat) : list (nat * fval * string) :=
  match rows with
  | [] => []
  | (ind, r) :: rest =>
      if fval_gtb (log_p r) threshold
      then (ind + 3, fadd (fadd (log_p r) (Q2Qc (5 # 100))) (shift_of pair_ind),
            simplified_varName (row r))
             :: label_texts_101 threshold rest (S pair_ind)
      else label_texts_101 threshold rest pair_ind
  end.

(** ** Vocabulary of the properties *)

(** What one iteration does to the dict: nothing, one assignment, or an
    exception. *)
Definition store (o : res (option (string * fval))) (dic : gmap string fval)
  : res (gmap string fval) :=
  match o with
  | Ok None => Ok dic
  | Ok (Some (k, v)) => Ok (<[k := v]> dic)
  | Raise e => Raise e
  end.

(** The item [x] of a loop does nothing but record NaN under [k]; taking it
    out of the list changes neither how the loop ends nor any other record. *)
Definition recorded_undefined_alone {A}
    (step : A → gmap string fval → res (gmap string fval))
    (x : A) (k : string) : Prop :=
  (∀ dic, step x dic = Ok (<[k := NaN]> dic))
  ∧ ∀ l1 l2,
      let with_x := for_each step (l1 ++ x :: l2) ∅ in
      let without := for_each step (l1 ++ l2) ∅ in
      with_x.2 = without.2
      ∧ (∀ w, w ≠ k → with_x.1 !! w = without.1 !! w)
      ∧ (with_x.2 = None → with_x.1 !! k = Some NaN).

(** the number of rows with a defined p-value *)
Definition n_valid (variablesDict : list joined_row) : nat :=
  length (filter (fun r => isna (jpvalues r) = false) variablesDict).

(** The reading with one record for every listed name and none besides. *)
Definition one_record_per_listed_name (names : list pyobj)
    (d : gmap string fval) : Prop :=
  (∀ x, x ∈ names → ∃ k, x = PyStr k ∧ is_Some (d !! k))
  ∧ (∀ k, is_Some (d !! k) → PyStr k ∈ names).

(** a finite p-value above 0, the ones with a finite [log_p] *)
Definition positive_pvalue (x : fval) : bool :=
  match x with
  | Fin q => bool_decide (0 < q)%Qc
  | _ => false
  end.

(** the text of a labelled row of the first notebook, for the value of
    [pair_ind] at that row *)
Definition label_text_101 (pair_ind : nat) (p : nat * result_row)
  : nat * fval * string :=
  (p.1 + 3, fadd (fadd (log_p p.2) (Q2Qc (5 # 100))) (shift_of pair_ind),
   simplified_varName (row p.2)).

Section Vocabulary.
Context {lib : StatsLib}.

(** *** The three loop bodies as single assignments *)

(** [try: dic[var] = r  except <catches>: dic[var] = np.NaN] *)
Definition caught_as_nan (catches : exn → bool) (var : string) (r : res fval)
  : res (option (string * fval)) :=
  match r with
  | Ok p => Ok (Some (var, p))
  | Raise e => if catches e then Ok (Some (var, NaN)) else Raise e
  end.

Definition is_ValueError (e : exn) : bool :=
  match e with ValueError => true | _ => false end.

Definition is_fit_error (e : exn) : bool :=
  match e with LinAlgError | PerfectSeparationError => true | _ => false end.

(** what [mannwhitneyu_step] assigns, or raises *)
Definition mannwhitneyu_outcome (facts_dummies : frame) (depcol : list cell)
    (var : string) : res (option (string * fval)) :=
  do col <- getcol facts_dummies var ;
  match (fun g => dropna g.2) <$> grouped depcol col with
  | [group1; group2] =>
      caught_as_nan is_ValueError var (mannwhitneyu group1 group2)
  | _ => Raise ValueError
  end.

(** what [fisher_step] assigns, if anything, or raises *)
Definition fisher_outcome (facts_dummies : frame) (dependent_var_name : string)
    (var : pyobj) : res (option (string * fval)) :=
  match var with
  | PyStr v =>
      match columns facts_dummies !! v with
      | None => Ok None
      | Some col =>
          do depcol <- getcol facts_dummies dependent_var_name ;
          let ct := crosstab col depcol in
          if bool_decide (shape ct = (1, 2)%nat) then Ok (Some (v, NaN))
          else (do r <- fisher_exact ct ; Ok (Some (v, r.2)))
      end
  | _ => Ok None
  end.

(** what [llr_step] assigns, or raises *)
Definition llr_outcome (facts : frame) (dependent_var_name : string)
    (variablesDict : list dict_row) (independent_varName : string)
  : res (option (string * fval)) :=
  do design <- llr_design facts dependent_var_name variablesDict independent_varName ;
  match design with
  | None => Ok (Some (independent_varName, NaN))
  | Some (dependent_var, independent_var) =>
      do model <- Logit dependent_var independent_var ;
      caught_as_nan is_fit_error independent_varName (fit_llr_pvalue model)
  end.

(** the row of the corrected table made from a row of the joined one, for
    a table of [n] rows *)
Definition corrected_row (n : nat) (j : joined_row) : result_row :=
  ResultRow (jrow j) (jpvalues j) (fdiv_len (jpvalues j) n) (neg_log10 (jpvalues j)).

(** The reading of the correction with N the number of defined p-values:
    threshold and adjusted p-values scaled by that N, and no row with an
    undefined p-value in the corrected table. *)
Definition scaled_by_valid_count (variablesDict : list joined_row) : Prop :=
  adjusted_alpha variablesDict
    = Ok (Fin (alpha / Qc_of_nat (n_valid variablesDict)))
  ∧ (∀ r q, r ∈ add_p_adj_log_p variablesDict → pvalues r = Fin q →
       p_adj r = Fin (q / Qc_of_nat (n_valid variablesDict)))
  ∧ (∀ r, r ∈ add_p_adj_log_p variablesDict → isna (pvalues r) = false).


End Vocabulary.

(** ** Libraries to run the notebooks on examples *)

Definition is_2x2 (ct : crosstab_t) : bool := bool_decide (shape ct = (2, 2)%nat).

(** A library that validates its inputs: [mannwhitneyu] raises ValueError on
    an empty sample, [fisher_exact] raises ValueError on a table that is not
    2 by 2, every fit succeeds. The p-values are placeholders. *)
Definition checking_lib : StatsLib := {|
  mannwhitneyu g1 g2 :=
    match g1, g2 with
    | _ :: _, _ :: _ => Ok (Fin (Q2Qc (1 # 2)))
    | _, _ => Raise ValueError
    end;
  fisher_exact ct :=
    if is_2x2 ct then Ok (Fin 1, Fin (Q2Qc (1 # 4))) else Raise ValueError;
  logit_model := unit;
  Logit _ _ := Ok ();
  fit_llr_pvalue _ := Ok (Fin (Q2Qc (1 # 8)));
  log10 _ := 0%Qc
|}.

(** A library whose [mannwhitneyu] does not validate sample sizes and answers
    0 on two empty samples, as the normal approximation of older scipy
    releases does (the standard deviation is 0, the statistic infinite). *)
Definition lenient_lib : StatsLib := {|
  mannwhitneyu g1 g2 :=
    match g1, g2 with
    | [], [] => Ok (Fin 0)
    | _, _ => Ok (Fin (Q2Qc (1 # 2)))
    end;
  fisher_exact ct := Ok (Fin 1, Fin (Q2Qc (1 # 4)));
  logit_model := unit;
  Logit _ _ := Ok ();
  fit_llr_pvalue _ := Raise LinAlgError;
  log10 _ := 0%Qc
|}.

(** ** Example cohorts *)

(** an integer-valued cell *)
Definition int (z : Z) : cell := Num (Q2Qc (inject_Z z)).

Definition ex_cohort : frame :=
  Frame [1; 2; 3; 4; 5; 6]
    (<["status" := [Str "Case"; Str "Control"; Str "Other"; Missing;
                    Str "Control"; Str "Case"]]>
     (<["age" := [int 61; int 54; int 70; int 48; Missing; int 66]]>
      (<["sex_Male" := [int 1; int 0; int 1; int 0; int 0; int 1]]> ∅))).

(** subjects of one group only *)
Definition ex_one_group : frame :=
  Frame [1; 6]
    (<["status" := [Str "Case"; Str "Case"]]>
     (<["age" := [int 61; int 66]]>
      (<["smoker_Yes" := [int 0; int 0]]> ∅))).

(** both groups, a column without any observation, a constant column *)
Definition ex_two_groups : frame :=
  Frame [1; 2; 5; 6]
    (<["status" := [Str "Case"; Str "Control"; Str "Control"; Str "Case"]]>
     (<["age" := [int 61; int 54; Missing; int 66]]>
      (<["fev1" := [Missing; Missing; Missing; Missing]]>
       (<["sex_Male" := [int 1; int 0; int 0; int 1]]>
        (<["smoker_Yes" := [int 0; int 0; int 0; int 0]]> ∅))))).

(** ** Example dictionary, p-values and names *)

(** an example dictionary and dict of p-values: the grouping trait, a
    variable with p-value 1/100, one with an undefined result, one with
    p-value 0 *)
Definition ex_variablesDict : list dict_row :=
  [DictRow "status" PyNone "Affection status" true "Other";
   DictRow "age" PyNone "Age" false "Demographics";
   DictRow "fev1" PyNone "FEV1" false "Spirometry";
   DictRow "distance" PyNone "Distance walked" false "6MinWalk"].

Definition ex_dic_pvalues : gmap string fval :=
  <["age" := Fin (Q2Qc (1 # 100))]>
    (<["fev1" := NaN]> (<["distance" := Fin 0]> ∅)).

(** the join key of PheWAS_py.ipynb *)
Definition by_varName (r : dict_row) : pyobj := PyStr (varName r).

(** the dictionary with its p-values column *)
Definition ex_joined : list joined_row :=
  [JoinedRow (DictRow "status" PyNone "Affection status" true "Other") NaN;
   JoinedRow (DictRow "age" PyNone "Age" false "Demographics")
     (Fin (Q2Qc (1 # 100)));
   JoinedRow (DictRow "fev1" PyNone "FEV1" false "Spirometry") NaN;
   JoinedRow (DictRow "distance" PyNone "Distance walked" false "6MinWalk")
     (Fin 0)].

Definition ex_zero_row : joined_row :=
  JoinedRow (DictRow "distance" PyNone "Distance walked" false "6MinWalk") (Fin 0).

Definition ex_undefined_row : dict_row :=
  DictRow "fev1" PyNone "FEV1" false "Spirometry".

Definition ex_alpha : fval := Fin (alpha / Qc_of_nat 4).

Definition ex_table : list result_row :=
  df_results (add_p_adj_log_p (lib := checking_lib) ex_joined).

Definition ex_names : list pyobj :=
  [PyStr "sex_Male"; PyFloat NaN; PyStr "asthma_Yes"].

(** ** Examples for the regression loop and the first notebook *)

(** A library whose [Logit] rejects a design that has no column besides the
    intercept, and whose [fisher_exact] fails on a table that is not 2 by 2
    with an error of the kind the first notebook catches. *)
Definition rejecting_lib : StatsLib := {|
  mannwhitneyu g1 g2 := Ok (Fin (Q2Qc (1 # 2)));
  fisher_exact ct :=
    if is_2x2 ct then Ok (Fin 1, Fin (Q2Qc (1 # 4))) else Raise AttributeError;
  logit_model := unit;
  Logit _ X := match X with _ :: _ :: _ => Ok () | _ => Raise LinAlgError end;
  fit_llr_pvalue _ := Ok (Fin (Q2Qc (1 # 8)));
  log10 _ := 0%Qc
|}.

(** the dictionary of [ex_two_groups] *)
Definition ex_llr_dict : list dict_row :=
  [DictRow "status" PyNone "Affection status" true "Other";
   DictRow "age" PyNone "Age" false "Demographics";
   DictRow "smoker_Yes" PyNone "Smoker" true "Medical History";
   DictRow "sex_Male" PyNone "Sex" true "Demographics"].

(** ** Example for the indicator columns *)

(** a cohort before the filter, with two categorical variables; the only
    smoker is neither a case nor a control *)
Definition ex_raw_cohort : frame :=
  Frame [1; 2; 3; 4; 5; 6]
    (<["status" := [Str "Case"; Str "Control"; Str "Other"; Missing;
                    Str "Control"; Str "Case"]]>
     (<["age" := [int 61; int 54; int 70; int 48; Missing; int 66]]>
      (<["sex" := [Str "Male"; Str "Female"; Str "Male"; Str "Female";
                   Str "Female"; Str "Male"]]>
       (<["smoker" := [Str "No"; Str "No"; Str "Yes"; Str "No";
                       Str "No"; Str "No"]]> ∅)))).

(** that cohort after the filter cell *)
Definition ex_filtered_cohort : frame :=
  Frame [1; 2; 5; 6]
    (<["status" := [Str "Case"; Str "Control"; Str "Control"; Str "Case"]]>
     (<["age" := [int 61; int 54; Missing; int 66]]>
      (<["sex" := [Str "Male"; Str "Female"; Str "Female"; Str "Male"]]>
       (<["smoker" := [Str "No"; Str "No"; Str "No"; Str "No"]]> ∅)))).

(** the matrix that [get_dummies] with the columns "sex" and "smoker" and
    [drop_first=True] makes from it: one indicator column for "sex", none
    for "smoker" *)
Definition ex_facts_dummies : frame :=
  Frame [1; 2; 5; 6]
    (<["status" := [Str "Case"; Str "Control"; Str "Control"; Str "Case"]]>
     (<["age" := [int 61; int 54; Missing; int 66]]>
      (<["sex_Male" := [Num 1; Num 0; Num 0; Num 1]]> ∅))).

(** the dummy names of the dictionary rows of "sex" and of "smoker": the
    join leaves NaN where a variable has no indicator column *)
Definition ex_dummy_names : list pyobj := [PyStr "sex_Male"; PyFloat NaN].

(** * Properties *)

(** ** The model on the examples *)

Example ex_joined_is_the_join :
  joining_variablesDict_onCol ex_variablesDict ex_dic_pvalues by_varName
  = ex_joined.
Proof. reflexivity. Qed.

Example ex_filter_one_group_raises :
  filter_cell ex_one_group "status" = Raise IndexError.
Proof. reflexivity. Qed.

Example ex_filter_keeps_four_subjects :
  ∃ facts', filter_cell ex_cohort "status" = Ok facts'
    ∧ index facts' = [1; 2; 5; 6]
    ∧ getcol facts' "status"
      = Ok [Str "Case"; Str "Control"; Str "Control"; Str "Case"]
    ∧ getcol facts' "age" = Ok [int 61; int 54; Missing; int 66].
Proof. eexists. repeat split; reflexivity. Qed.

Example ex_crosstab_one_group :
  shape (crosstab [int 0; int 0] [Str "Case"; Str "Case"]) = (1, 1)%nat
  ∧ counts (crosstab [int 0; int 0] [Str "Case"; Str "Case"]) = [[2]].
Proof. split; reflexivity. Qed.

Example ex_crosstab_two_groups :
  counts (crosstab [int 1; int 0; int 0; int 1]
            [Str "Case"; Str "Control"; Str "Control"; Str "Case"])
  = [[0; 2]; [2; 0]].
Proof. reflexivity. Qed.

Example ex_mannwhitneyu_without_validation :
  dic_mannwhitneyu (lib := lenient_lib) ex_two_groups "status" ["age"; "fev1"]
  = (<["fev1" := Fin 0]> (<["age" := Fin (Q2Qc (1 # 2))]> ∅), None).
Proof. reflexivity. Qed.

(** on a matrix typed by hand, with a constant 0/1 column and one group: the
    filter cell rejects such a cohort and [get_dummies] makes no such column *)
Example ex_fisher_one_group_aborts :
  dic_fisher (lib := checking_lib) ex_one_group "status" [PyStr "smoker_Yes"]
  = (∅, Some ValueError).
Proof. reflexivity. Qed.

(** the indicator of the last level is the one that is dropped *)
Example ex_llr_design_categorical :
  llr_design ex_two_groups "status"
    [DictRow "sex_Male" PyNone "Sex" true "Demographics"] "sex_Male"
  = Ok (Some ([0; 1; 1; 0]%Z,
              [[Num 0; Num 1; Num 1; Num 0]; [Num 1; Num 1; Num 1; Num 1]])).
Proof. vm_compute. reflexivity. Qed.

(** ** Sorted distinct values *)

Lemma unique_sorted_perm (col : list cell) :
  unique_sorted col ≡ₚ remove_dups (dropna col).
Proof. apply merge_sort_Permutation. Qed.

Lemma elem_of_unique_sorted (x : cell) (col : list cell) :
  x ∈ unique_sorted col ↔ x ∈ col ∧ x ≠ Missing.
Proof.
  rewrite unique_sorted_perm, elem_of_remove_dups.
  unfold dropna. rewrite list_elem_of_filter.
  destruct x; simpl; split; intros [? ?]; split; auto; congruence.
Qed.

Lemma NoDup_unique_sorted (col : list cell) : NoDup (unique_sorted col).
Proof. rewrite unique_sorted_perm. apply NoDup_remove_dups. Qed.

Lemma NoDup_all_eq {A} (a : A) (l : list A) :
  NoDup l → (∀ x, x ∈ l ↔ x = a) → l = [a].
Proof.
  intros Hnd Hl. destruct l as [|x l].
  - exfalso. apply (not_elem_of_nil a), Hl. done.
  - assert (x = a) as -> by (apply Hl; left).
    apply NoDup_cons in Hnd as [Hx _]. destruct l as [|y l]; [done|].
    exfalso. apply Hx. assert (y = a) as -> by (apply Hl; right; left).
    left.
Qed.

Lemma NoDup_two {A} (a b : A) (l : list A) :
  NoDup l → (∀ x, x ∈ l ↔ x = a ∨ x = b) → a ≠ b →
  l = [a; b] ∨ l = [b; a].
Proof.
  intros Hnd Hl Hab.
  assert (Ha : a ∈ l) by (apply Hl; auto).
  assert (Hb : b ∈ l) by (apply Hl; auto).
  destruct l as [|x [|y [|z l]]].
  - by apply elem_of_nil in Ha.
  - apply list_elem_of_singleton in Ha, Hb. congruence.
  - apply NoDup_cons in Hnd as [Hxy _].
    rewrite list_elem_of_singleton in Hxy.
    assert (Hx : x = a ∨ x = b) by (apply Hl; left).
    assert (Hy : y = a ∨ y = b) by (apply Hl; right; left).
    destruct Hx, Hy; subst; auto; done.
  - exfalso.
    apply NoDup_cons in Hnd as [Hx Hnd]. apply NoDup_cons in Hnd as [Hy _].
    rewrite !elem_of_cons in Hx. rewrite elem_of_cons in Hy.
    assert (Hx' : x = a ∨ x = b) by (apply Hl; left).
    assert (Hy' : y = a ∨ y = b) by (apply Hl; right; left).
    assert (Hz' : z = a ∨ z = b) by (apply Hl; right; right; left).
    destruct Hx', Hy', Hz'; subst; tauto.
Qed.

Lemma unique_sorted_one (a : cell) (col : list cell) :
  a ≠ Missing → a ∈ col → (∀ x, x ∈ col → x = a ∨ x = Missing) →
  unique_sorted col = [a].
Proof.
  intros Ha Hin Hall. apply NoDup_all_eq; [apply NoDup_unique_sorted|].
  intros x. rewrite elem_of_unique_sorted. split.
  - intros [Hx Hm]. destruct (Hall x Hx); done.
  - intros ->. done.
Qed.

Lemma unique_sorted_case_control (col : list cell) :
  Str "Case" ∈ col → Str "Control" ∈ col →
  (∀ x, x ∈ col → x = Str "Case" ∨ x = Str "Control" ∨ x = Missing) →
  unique_sorted col = [Str "Case"; Str "Control"].
Proof.
  intros Hc Hk Hall. unfold unique_sorted.
  destruct (NoDup_two (Str "Case") (Str "Control") (remove_dups (dropna col)))
    as [-> | ->]; [apply NoDup_remove_dups| |done|reflexivity|reflexivity].
  intros x. rewrite elem_of_remove_dups. unfold dropna.
  rewrite list_elem_of_filter. split.
  - intros [Hn Hx]. destruct (Hall x Hx) as [?|[?|?]]; subst; auto. done.
  - intros [-> | ->]; done.
Qed.

(** ** Loops over a dict *)

Lemma for_each_app {A} (step : A → gmap string fval → res (gmap string fval))
    (l1 l2 : list A) (dic : gmap string fval) :
  for_each step (l1 ++ l2) dic =
    match for_each step l1 dic with
    | (dic', None) => for_each step l2 dic'
    | r => r
    end.
Proof.
  revert dic. induction l1 as [|x l1 IH]; intros dic; simpl; [done|].
  destruct (step x dic); [apply IH|done].
Qed.

Section ForEach.
Context {A : Type}.
Variable step : A → gmap string fval → res (gmap string fval).
Variable act : A → res (option (string * fval)).
Hypothesis step_act : ∀ x dic, step x dic = store (act x) dic.

(** every record of the final dict was there at the start or was written by
    an item of the list *)
Lemma for_each_sound (items : list A) (d0 d : gmap string fval) oe k v :
  for_each step items d0 = (d, oe) → d !! k = Some v →
  d0 !! k = Some v ∨ ∃ x, x ∈ items ∧ act x = Ok (Some (k, v)).
Proof.
  revert d0. induction items as [|x items IH]; intros d0; simpl.
  - intros [= <- <-]. auto.
  - rewrite step_act. destruct (act x) as [[[k' v']|]|e] eqn:Hx; simpl.
    + intros Hrun Hk. destruct (IH _ Hrun Hk) as [H0|(y & Hy & Hact)].
      * destruct (decide (k' = k)) as [->|Hne].
        -- rewrite lookup_insert_eq in H0. injection H0 as ->.
           right. exists x. split; [left|done].
        -- rewrite lookup_insert_ne in H0 by done. auto.
      * right. exists y. split; [by right|done].
    + intros Hrun Hk. destruct (IH _ Hrun Hk) as [H0|(y & Hy & Hact)]; auto.
      right. exists y. split; [by right|done].
    + intros [= <- <-]. auto.
Qed.

(** a loop over items none of which raises ends normally *)
Lemma for_each_total (items : list A) (d0 : gmap string fval) :
  (∀ x, x ∈ items → ∃ o, act x = Ok o) →
  ∃ d, for_each step items d0 = (d, None).
Proof.
  revert d0. induction items as [|y items IH]; intros d0 Hall; simpl; [eauto|].
  rewrite step_act. destruct (Hall y) as [o ->]; [left|].
  destruct o as [[? ?]|]; simpl; apply IH; intros; apply Hall; by right.
Qed.

(** when the value written under a key does not depend on the item that
    writes it, a completed loop holds that value *)
Lemma for_each_complete (items : list A) (d0 d : gmap string fval) k v :
  (∀ y w, act y = Ok (Some (k, w)) → w = v) →
  for_each step items d0 = (d, None) →
  d0 !! k = Some v ∨ (∃ x, x ∈ items ∧ act x = Ok (Some (k, v))) →
  d !! k = Some v.
Proof.
  intros Hfun. revert d0. induction items as [|y items IH]; intros d0; simpl.
  - intros [= <-] [?|(x & Hx & _)]; [done|]. by apply elem_of_nil in Hx.
  - rewrite step_act. intros Hrun Hor.
    destruct (act y) as [[[k' v']|]|e] eqn:Hy; simpl in Hrun; [| |done].
    + apply (IH _ Hrun). destruct (decide (k' = k)) as [->|Hne].
      * left. rewrite (Hfun _ _ Hy). apply lookup_insert_eq.
      * rewrite lookup_insert_ne by done.
        destruct Hor as [?|(x & [->|Hx]%elem_of_cons & Hact)]; auto.
        -- congruence.
        -- right; eauto.
    + apply (IH _ Hrun).
      destruct Hor as [?|(x & [->|Hx]%elem_of_cons & Hact)]; auto.
      * congruence.
      * right; eauto.
Qed.

(** two runs of the same items from dicts that agree away from [k] end the
    same way, with dicts that agree away from [k] *)
Lemma for_each_agree_off (k : string) (items : list A) (d0 d0' : gmap string fval) :
  (∀ w, w ≠ k → d0 !! w = d0' !! w) →
  (for_each step items d0).2 = (for_each step items d0').2 ∧
  ∀ w, w ≠ k → (for_each step items d0).1 !! w = (for_each step items d0').1 !! w.
Proof.
  revert d0 d0'. induction items as [|y items IH]; intros d0 d0' Hag; simpl.
  - auto.
  - rewrite !step_act. destruct (act y) as [[[k' v']|]|e]; simpl; auto.
    apply IH. intros w Hw. destruct (decide (k' = w)) as [->|Hne].
    + by rewrite !lookup_insert_eq.
    + rewrite !lookup_insert_ne by done. auto.
Qed.

(** an item that only writes NaN under [k] can be taken out of the list:
    the loop ends the same way and every other key has the same record *)
Lemma for_each_drop_item (k : string) (x : A) (l1 l2 : list A) :
  act x = Ok (Some (k, NaN)) →
  (for_each step (l1 ++ x :: l2) ∅).2 = (for_each step (l1 ++ l2) ∅).2 ∧
  ∀ w, w ≠ k →
    (for_each step (l1 ++ x :: l2) ∅).1 !! w = (for_each step (l1 ++ l2) ∅).1 !! w.
Proof.
  intros Hx. rewrite !for_each_app.
  destruct (for_each step l1 ∅) as [d1 [e|]]; [done|].
  simpl. rewrite step_act, Hx. simpl.
  apply for_each_agree_off. intros w Hw. by apply lookup_insert_ne.
Qed.

End ForEach.

(** ** The three loop bodies as single assignments *)

Section Outcomes.
Context {lib : StatsLib}.

Lemma mannwhitneyu_step_store facts_dummies depcol var dic :
  mannwhitneyu_step facts_dummies depcol var dic
  = store (mannwhitneyu_outcome facts_dummies depcol var) dic.
Proof.
  unfold mannwhitneyu_step, mannwhitneyu_outcome.
  destruct (getcol facts_dummies var) as [col|e]; simpl; [|done].
  destruct ((fun g => dropna g.2) <$> grouped depcol col)
    as [|g1 [|g2 [|g3 gs]]]; simpl; try done.
  destruct (mannwhitneyu g1 g2) as [p|[]]; done.
Qed.

Lemma fisher_step_store facts_dummies dependent_var_name var dic :
  fisher_step facts_dummies dependent_var_name var dic
  = store (fisher_outcome facts_dummies dependent_var_name var) dic.
Proof.
  unfold fisher_step, fisher_outcome. destruct var as [v| |]; try done.
  destruct (columns facts_dummies !! v) as [col|]; [|done].
  destruct (getcol facts_dummies dependent_var_name) as [depcol|e]; simpl; [|done].
  case_bool_decide; [done|].
  destruct (fisher_exact _) as [r|e]; done.
Qed.

Lemma llr_step_store facts dependent_var_name variablesDict var dic :
  llr_step facts dependent_var_name variablesDict var dic
  = store (llr_outcome facts dependent_var_name variablesDict var) dic.
Proof.
  unfold llr_step, llr_outcome.
  destruct (llr_design _ _ _ _) as [[[y X]|]|e]; simpl; try done.
  destruct (Logit y X) as [m|e]; simpl; [|done].
  destruct (fit_llr_pvalue m) as [p|[]]; done.
Qed.

(** every record is filed under the name of the variable that was tested *)
Lemma mannwhitneyu_outcome_key facts_dummies depcol var k v :
  mannwhitneyu_outcome facts_dummies depcol var = Ok (Some (k, v)) → k = var.
Proof.
  unfold mannwhitneyu_outcome.
  destruct (getcol facts_dummies var) as [col|e]; simpl; [|done].
  destruct ((fun g => dropna g.2) <$> grouped depcol col)
    as [|g1 [|g2 [|g3 gs]]]; simpl; try done.
  destruct (mannwhitneyu g1 g2) as [p|e]; simpl; [congruence|].
  destruct (is_ValueError e); congruence.
Qed.

Lemma fisher_outcome_key facts_dummies dep var k v :
  fisher_outcome facts_dummies dep var = Ok (Some (k, v)) →
  var = PyStr k ∧ is_Some (columns facts_dummies !! k).
Proof.
  unfold fisher_outcome. destruct var as [s| |]; try done.
  destruct (columns facts_dummies !! s) as [col|] eqn:Hs; [|done].
  destruct (getcol facts_dummies dep) as [depcol|e]; simpl; [|done].
  case_bool_decide.
  - intros [= <- <-]. eauto.
  - destruct (fisher_exact _) as [r|e]; simpl; [|done].
    intros [= <- <-]. eauto.
Qed.

Lemma llr_outcome_key facts dep variablesDict var k v :
  llr_outcome facts dep variablesDict var = Ok (Some (k, v)) → k = var.
Proof.
  unfold llr_outcome.
  destruct (llr_design _ _ _ _) as [[[y X]|]|e]; simpl; try congruence.
  destruct (Logit y X) as [m|e]; simpl; [|done].
  destruct (fit_llr_pvalue m) as [p|e]; simpl; [congruence|].
  destruct (is_fit_error e); congruence.
Qed.

End Outcomes.

(** ** Fisher loop: names that are skipped *)

Section FisherSkip.
Context {lib : StatsLib}.

(** C10. In the Fisher loop a listed name that is not a string, or that is
    not a column of the cohort matrix, is passed over by [continue]: the dict
    is left as it is, the loop gives the same dict and ends the same way as
    if the name had not been listed, and no record is ever filed under such a
    name, in either notebook. *)
Theorem C10_skipped_name_leaves_no_record
    (facts_dummies : frame) (dependent_var_name : string) (var : pyobj) :
  (∀ s, var = PyStr s → columns facts_dummies !! s = None) →
  (∀ dic, fisher_step facts_dummies dependent_var_name var dic = Ok dic)
  ∧ (∀ l1 l2,
       dic_fisher facts_dummies dependent_var_name (l1 ++ var :: l2)
       = dic_fisher facts_dummies dependent_var_name (l1 ++ l2))
  ∧ (∀ names s, var = PyStr s →
       (dic_fisher facts_dummies dependent_var_name names).1 !! s = None
       ∧ (dic_fisher_101 facts_dummies dependent_var_name names).1 !! s = None).
Proof.
  intros Hskip.
  assert (Hstep : ∀ dic,
    fisher_step facts_dummies dependent_var_name var dic = Ok dic).
  { intros dic. unfold fisher_step. destruct var as [s| |]; try done.
    by rewrite (Hskip s eq_refl). }
  assert (Hnone : ∀ names s, var = PyStr s →
    (dic_fisher facts_dummies dependent_var_name names).1 !! s = None).
  { intros names s ->. unfold dic_fisher.
    destruct (for_each _ names ∅) as [d oe] eqn:Hrun. simpl.
    destruct (d !! s) as [v|] eqn:Hd; [exfalso|done].
    destruct (for_each_sound _ _ (fisher_step_store _ _) _ _ _ _ _ _ Hrun Hd)
      as [H0|(x & _ & Hx)]; [done|].
    apply fisher_outcome_key in Hx as [_ [col Hcol]].
    rewrite (Hskip s eq_refl) in Hcol. done. }
  split; [done|]. split.
  - intros l1 l2. unfold dic_fisher. rewrite !for_each_app.
    destruct (for_each _ l1 ∅) as [d1 [e|]]; [done|].
    simpl. by rewrite Hstep.
  - intros names s Hs. split; [by apply Hnone|].
    unfold dic_fisher_101.
    pose proof (Hnone (take 500 names) s Hs) as Ht.
    destruct (dic_fisher _ _ (take 500 names)) as [d [[]|]]; done.
Qed.

End FisherSkip.

Lemma C10_witness :
  dic_fisher (lib := checking_lib) ex_two_groups "status"
    ([PyStr "sex_Male"] ++ PyStr "asthma_Yes" :: [PyStr "smoker_Yes"])
  = dic_fisher (lib := checking_lib) ex_two_groups "status"
      ([PyStr "sex_Male"] ++ [PyStr "smoker_Yes"]).
Proof.
  apply (C10_skipped_name_leaves_no_record (lib := checking_lib)
           ex_two_groups "status" (PyStr "asthma_Yes")).
  intros s [= <-]. reflexivity.
Defined.

(** ** Mann-Whitney loop: the unpacking into two groups *)

Section TwoGroups.
Context {lib : StatsLib}.

Lemma grouped_length (depcol col : list cell) :
  length ((fun g : cell * list cell => dropna g.2) <$> grouped depcol col)
  = length (unique_sorted depcol).
Proof. unfold grouped. by rewrite !length_fmap. Qed.

(** with a number of groups other than two, an existing column raises
    ValueError at the unpacking, before the test is called *)
Lemma mannwhitneyu_outcome_unpack facts_dummies depcol var :
  length (unique_sorted depcol) ≠ 2 →
  ∃ e, mannwhitneyu_outcome facts_dummies depcol var = Raise e
       ∧ (is_Some (columns facts_dummies !! var) → e = ValueError).
Proof.
  intros Hlen. unfold mannwhitneyu_outcome, getcol.
  destruct (columns facts_dummies !! var) as [col|]; simpl.
  - pose proof (grouped_length depcol col) as Hg.
    destruct ((fun g => dropna g.2) <$> grouped depcol col)
      as [|g1 [|g2 [|g3 gs]]]; simpl in *; eauto.
    congruence.
  - exists KeyError. split; [done|]. by intros [? ?].
Qed.

(** with two groups, an existing column gives a record whenever the test
    returns or raises ValueError *)
Lemma mannwhitneyu_outcome_two facts_dummies depcol var :
  length (unique_sorted depcol) = 2 →
  is_Some (columns facts_dummies !! var) →
  (∀ g1 g2 e, mannwhitneyu g1 g2 = Raise e → e = ValueError) →
  ∃ p, mannwhitneyu_outcome facts_dummies depcol var = Ok (Some (var, p)).
Proof.
  intros Hlen [col Hcol] Hlib. unfold mannwhitneyu_outcome, getcol.
  rewrite Hcol. simpl.
  pose proof (grouped_length depcol col) as Hg. rewrite Hlen in Hg.
  destruct ((fun g => dropna g.2) <$> grouped depcol col)
    as [|g1 [|g2 [|g3 gs]]]; simpl in *; try done.
  destruct (mannwhitneyu g1 g2) as [p|e] eqn:Hmw; simpl; [eauto|].
  rewrite (Hlib _ _ _ Hmw). simpl. eauto.
Qed.

(** C8. The loop over the continuous variables is total only when the
    filtered cohort has both groups. When the grouping column has a number
    of observed values other than two (one group only, in particular), the
    first variable already raises: the unpacking into [group1, group2] is
    outside the [try], so the loop is aborted with ValueError (KeyError when
    the variable is not even a column), no record is written, not even an
    undefined one, and no later variable is screened. With exactly two
    groups, columns that exist and a test that raises nothing but ValueError,
    the loop ends normally with one record per variable. *)
Theorem C8_mannwhitneyu_loop_needs_two_groups
    (facts_dummies : frame) (dependent_var_name : string) (depcol : list cell) :
  getcol facts_dummies dependent_var_name = Ok depcol →
  (length (unique_sorted depcol) ≠ 2 →
     ∀ var continuous_varnames, ∃ e,
       dic_mannwhitneyu facts_dummies dependent_var_name
         (var :: continuous_varnames) = (∅, Some e)
       ∧ (is_Some (columns facts_dummies !! var) → e = ValueError))
  ∧ (length (unique_sorted depcol) = 2 →
     ∀ continuous_varnames,
       (∀ v, v ∈ continuous_varnames → is_Some (columns facts_dummies !! v)) →
       (∀ g1 g2 e, mannwhitneyu g1 g2 = Raise e → e = ValueError) →
       ∃ d, dic_mannwhitneyu facts_dummies dependent_var_name
              continuous_varnames = (d, None)
            ∧ ∀ v, v ∈ continuous_varnames ↔ is_Some (d !! v)).
Proof.
  intros Hdep. unfold dic_mannwhitneyu. rewrite Hdep. split.
  - intros Hlen var names. simpl. rewrite mannwhitneyu_step_store.
    destruct (mannwhitneyu_outcome_unpack facts_dummies depcol var Hlen)
      as (e & -> & He).
    exists e. done.
  - intros Hlen names Hcols Hlib.
    pose proof (mannwhitneyu_step_store facts_dummies depcol) as Hst.
    destruct (for_each_total _ _ Hst names ∅) as [d Hrun].
    { intros v Hv.
      destruct (mannwhitneyu_outcome_two facts_dummies depcol v Hlen
                  (Hcols v Hv) Hlib) as [p ->]. eauto. }
    exists d. split; [done|]. intros v. split.
    + intros Hv.
      destruct (mannwhitneyu_outcome_two facts_dummies depcol v Hlen
                  (Hcols v Hv) Hlib) as [p Hp].
      exists p. eapply (for_each_complete _ _ Hst); [|exact Hrun|eauto].
      intros y w Hy. pose proof (mannwhitneyu_outcome_key _ _ _ _ _ Hy) as ->.
      congruence.
    + intros [p Hp].
      destruct (for_each_sound _ _ Hst _ _ _ _ _ _ Hrun Hp)
        as [?|(x & Hx & Hact)]; [done|].
      by rewrite (mannwhitneyu_outcome_key _ _ _ _ _ Hact).
Qed.

End TwoGroups.

Lemma C8_witness :
  (∃ e, dic_mannwhitneyu (lib := checking_lib) ex_one_group "status"
          ("age" :: ["fev1"]) = (∅, Some e)
        ∧ (is_Some (columns ex_one_group !! "age") → e = ValueError))
  ∧ (∃ d, dic_mannwhitneyu (lib := checking_lib) ex_two_groups "status"
            ["age"; "fev1"] = (d, None)
          ∧ ∀ v, v ∈ ["age"; "fev1"] ↔ is_Some (d !! v)).
Proof.
  split.
  - refine (proj1 (C8_mannwhitneyu_loop_needs_two_groups (lib := checking_lib)
                     ex_one_group "status" [Str "Case"; Str "Case"] _) _ _ _).
    + reflexivity.
    + vm_compute. lia.
  - refine (proj2 (C8_mannwhitneyu_loop_needs_two_groups (lib := checking_lib)
                     ex_two_groups "status"
                     [Str "Case"; Str "Control"; Str "Control"; Str "Case"] _)
              _ _ _ _).
    + reflexivity.
    + reflexivity.
    + intros v [->|[->|[]%elem_of_nil]%elem_of_cons]%elem_of_cons;
        vm_compute; eauto.
    + intros [|? ?] [|? ?] e; simpl; congruence.
Defined.

(** ** Failures that are caught stay local *)

Lemma recorded_undefined_alone_intro {A}
    (step : A → gmap string fval → res (gmap string fval))
    (act : A → res (option (string * fval))) (x : A) (k : string) :
  (∀ y dic, step y dic = store (act y) dic) →
  (∀ y w, act y = Ok (Some (k, w)) → y = x) →
  act x = Ok (Some (k, NaN)) →
  recorded_undefined_alone step x k.
Proof.
  intros Hst Hkey Hx. split.
  - intros dic. by rewrite Hst, Hx.
  - intros l1 l2. simpl.
    destruct (for_each_drop_item step act Hst k x l1 l2 Hx) as [H2 H1].
    repeat split; [done|done|].
    clear H1 H2.
    destruct (for_each step (l1 ++ x :: l2) ∅) as [d oe] eqn:Hrun.
    simpl. intros ->.
    eapply (for_each_complete step act Hst); [|exact Hrun|].
    + intros y w Hy. rewrite (Hkey _ _ Hy) in Hy. congruence.
    + right. exists x. split; [|done].
      apply elem_of_app. right. left.
Qed.

Section CaughtFailures.
Context {lib : StatsLib}.

(** C4. A failure of one variable that the loop catches is recorded as NaN
    for that variable and touches nothing else: a singular design matrix
    (LinAlgError) or a perfect separation (PerfectSeparationError) raised by
    the fit in the regression loop, a contingency table of shape (1, 2) in
    the Fisher loop, a ValueError of the test in the Mann-Whitney loop. In
    each loop and for every list of variables around the failing one, the
    loop ends the same way, and every other variable has the same record, as
    when the failing variable is not screened at all. *)
Theorem C4_caught_failure_stays_local
    (facts : frame) (dependent_var_name : string) :
  (∀ variablesDict var dependent_var independent_var model,
     llr_design facts dependent_var_name variablesDict var
       = Ok (Some (dependent_var, independent_var)) →
     Logit dependent_var independent_var = Ok model →
     fit_llr_pvalue model = Raise LinAlgError
       ∨ fit_llr_pvalue model = Raise PerfectSeparationError →
     recorded_undefined_alone
       (llr_step facts dependent_var_name variablesDict) var var)
  ∧ (∀ var col depcol,
       columns facts !! var = Some col →
       getcol facts dependent_var_name = Ok depcol →
       shape (crosstab col depcol) = (1, 2)%nat →
       recorded_undefined_alone
         (fisher_step facts dependent_var_name) (PyStr var) var)
  ∧ (∀ depcol var col group1 group2,
       columns facts !! var = Some col →
       (fun g : cell * list cell => dropna g.2) <$> grouped depcol col
         = [group1; group2] →
       mannwhitneyu group1 group2 = Raise ValueError →
       recorded_undefined_alone (mannwhitneyu_step facts depcol) var var).
Proof.
  split; [|split].
  - intros vd var y X m Hdesign Hlogit Hfit.
    apply (recorded_undefined_alone_intro _
             (llr_outcome facts dependent_var_name vd)).
    + intros. apply llr_step_store.
    + intros v w Hv. by rewrite (llr_outcome_key _ _ _ _ _ _ Hv).
    + unfold llr_outcome. rewrite Hdesign. simpl. rewrite Hlogit. simpl.
      by destruct Hfit as [-> | ->].
  - intros var col depcol Hcol Hdep Hshape.
    apply (recorded_undefined_alone_intro _
             (fisher_outcome facts dependent_var_name)).
    + intros. apply fisher_step_store.
    + intros v w Hv. by destruct (fisher_outcome_key _ _ _ _ _ Hv) as [-> _].
    + unfold fisher_outcome. rewrite Hcol, Hdep. simpl.
      by rewrite bool_decide_eq_true_2.
  - intros depcol var col g1 g2 Hcol Hgroups Hmw.
    apply (recorded_undefined_alone_intro _
             (mannwhitneyu_outcome facts depcol)).
    + intros. apply mannwhitneyu_step_store.
    + intros v w Hv. by rewrite (mannwhitneyu_outcome_key _ _ _ _ _ Hv).
    + unfold mannwhitneyu_outcome, getcol. rewrite Hcol. simpl.
      rewrite Hgroups, Hmw. done.
Qed.

End CaughtFailures.

Lemma C4_witness :
  recorded_undefined_alone
    (llr_step (lib := lenient_lib) ex_two_groups "status"
       [DictRow "age" PyNone "Age" false "Demographics"]) "age" "age"
  ∧ recorded_undefined_alone
      (fisher_step (lib := checking_lib) ex_two_groups "status")
      (PyStr "smoker_Yes") "smoker_Yes"
  ∧ recorded_undefined_alone
      (mannwhitneyu_step (lib := checking_lib) ex_two_groups
         [Str "Case"; Str "Control"; Str "Control"; Str "Case"]) "fev1" "fev1".
Proof.
  split; [|split].
  - eapply (proj1 (C4_caught_failure_stays_local (lib := lenient_lib)
                     ex_two_groups "status")).
    + vm_compute. reflexivity.
    + reflexivity.
    + left. reflexivity.
  - eapply (proj1 (proj2 (C4_caught_failure_stays_local (lib := checking_lib)
                            ex_two_groups "status"))).
    + reflexivity.
    + reflexivity.
    + vm_compute. reflexivity.
  - eapply (proj2 (proj2 (C4_caught_failure_stays_local (lib := checking_lib)
                            ex_two_groups "status"))).
    + reflexivity.
    + vm_compute. reflexivity.
    + reflexivity.
Defined.

(** ** Cohort filter *)

Lemma select_fmap_filter {A} (f : A → bool) (l : list A) :
  select (f <$> l) l = filter (fun x => f x = true) l.
Proof.
  induction l as [|x l IH]; [done|].
  rewrite fmap_cons, filter_cons. cbn [select].
  rewrite IH. destruct (decide (f x = true)) as [Hf|Hf].
  - by rewrite Hf.
  - apply not_true_is_false in Hf. by rewrite Hf.
Qed.

Lemma elem_of_select {A} (mask : list bool) (l : list A) (x : A) :
  x ∈ select mask l ↔ ∃ i, mask !! i = Some true ∧ l !! i = Some x.
Proof.
  revert l. induction mask as [|b mask IH]; intros [|y l]; cbn [select].
  - rewrite elem_of_nil. split; [done|]. by intros (i & ? & ?).
  - rewrite elem_of_nil. split; [done|]. by intros (i & ? & ?).
  - rewrite elem_of_nil. split; [done|]. intros (i & _ & Hi). by destruct i.
  - destruct b.
    + rewrite elem_of_cons, IH. split.
      * intros [->|(i & ? & ?)]; [by exists 0|by exists (S i)].
      * intros ([|i] & Hm & Hl); simpl in *; [left; congruence|right; eauto].
    + rewrite IH. split.
      * intros (i & ? & ?). by exists (S i).
      * intros ([|i] & Hm & Hl); simpl in *; [done|eauto].
Qed.

Lemma isin_kept (c : cell) :
  isin kept_categories c = true ↔ c = Str "Case" ∨ c = Str "Control".
Proof.
  destruct c as [|s|q]; simpl.
  - split; [done|by intros [|]].
  - rewrite bool_decide_eq_true. unfold kept_categories.
    rewrite !elem_of_cons, elem_of_nil. split.
    + intros [->|[->|[]]]; auto.
    + intros [[= ->]|[= ->]]; auto.
  - split; [done|by intros [|]].
Qed.

Lemma format_two_ok (args : list nat) :
  format_two args = Ok () ↔ 2 ≤ length args.
Proof.
  destruct args as [|a [|b args]]; simpl; split; try done; try lia.
Qed.

(** a column of "Case" and "Control" cells with at least two distinct values
    has both *)
Lemma two_values_both (col : list cell) :
  (∀ c, c ∈ col → c = Str "Case" ∨ c = Str "Control") →
  2 ≤ length (unique_sorted col) →
  Str "Case" ∈ col ∧ Str "Control" ∈ col.
Proof.
  intros Hall Hlen. pose proof (NoDup_unique_sorted col) as Hnd.
  destruct (unique_sorted col) as [|a [|b l]] eqn:Hu; simpl in Hlen; try lia.
  assert (Ha : a ∈ col) by (apply (elem_of_unique_sorted a col); rewrite Hu; left).
  assert (Hb : b ∈ col)
    by (apply (elem_of_unique_sorted b col); rewrite Hu; right; left).
  apply NoDup_cons in Hnd as [Hab _]. rewrite elem_of_cons in Hab.
  destruct (Hall a Ha), (Hall b Hb); subst; tauto.
Qed.

(** C7. The cohort filter keeps exactly the subjects whose grouping value is
    "Case" or "Control": a subject is in the filtered index if and only if it
    sits on a row of the cohort with one of these two values, so rows with any
    other value or a missing one are dropped; the filtered grouping column is
    the original one restricted to these two values. The cell completes (its
    print needs the two counts) exactly when both values occur, and grouping
    any column of the filtered cohort by the trait then gives exactly the
    two groups "Case" and "Control". *)
Theorem C7_cohort_filter_keeps_case_and_control
    (facts : frame) (dependent_var_name : string) (col : list cell) :
  getcol facts dependent_var_name = Ok col →
  let facts' := loc_rows (isin kept_categories <$> col) facts in
  let col' := filter (fun c => c = Str "Case" ∨ c = Str "Control") col in
  cohort_filter facts dependent_var_name = Ok facts'
  ∧ getcol facts' dependent_var_name = Ok col'
  ∧ (∀ pid, pid ∈ index facts' ↔
       ∃ i, index facts !! i = Some pid
            ∧ (col !! i = Some (Str "Case") ∨ col !! i = Some (Str "Control")))
  ∧ (∀ c, c ∈ col' → c = Str "Case" ∨ c = Str "Control")
  ∧ (filter_cell facts dependent_var_name = Ok facts'
     ↔ Str "Case" ∈ col ∧ Str "Control" ∈ col)
  ∧ (∀ out, filter_cell facts dependent_var_name = Ok out →
       out = facts'
       ∧ ∀ x, (grouped col' x).*1 = [Str "Case"; Str "Control"]).
Proof.
  intros Hcol facts' col'.
  assert (Hfilter : cohort_filter facts dependent_var_name = Ok facts').
  { unfold cohort_filter, mask_dependent_var_name. by rewrite Hcol. }
  assert (Hcol' : getcol facts' dependent_var_name = Ok col').
  { unfold getcol in *. subst facts'. simpl. rewrite lookup_fmap.
    destruct (columns facts !! dependent_var_name) as [c|]; [|done].
    injection Hcol as ->. simpl. rewrite select_fmap_filter. f_equal.
    apply list_filter_iff. intros c. apply isin_kept. }
  assert (Hvals : ∀ c, c ∈ col' → c = Str "Case" ∨ c = Str "Control").
  { intros c Hc. by apply list_elem_of_filter in Hc as [? _]. }
  assert (Hgrp : ∀ x, (grouped col' x).*1 = unique_sorted col').
  { intros x. unfold grouped. rewrite <- list_fmap_compose.
    apply list_fmap_id. }
  assert (Hcell : filter_cell facts dependent_var_name
                  = (do _ <- format_two (value_counts col') ; Ok facts')).
  { unfold filter_cell. rewrite Hfilter. simpl. by rewrite Hcol'. }
  assert (Hboth : ∀ c, c ∈ col' ↔ c ∈ col ∧ (c = Str "Case" ∨ c = Str "Control")).
  { intros c. subst col'. rewrite list_elem_of_filter. tauto. }
  assert (Hu : Str "Case" ∈ col' → Str "Control" ∈ col' →
               unique_sorted col' = [Str "Case"; Str "Control"]).
  { intros Hc Hk. apply unique_sorted_case_control; [done|done|].
    intros c Hc'. destruct (Hvals c Hc'); auto. }
  assert (Hok : ∀ out, filter_cell facts dependent_var_name = Ok out →
                out = facts' ∧ Str "Case" ∈ col' ∧ Str "Control" ∈ col').
  { intros out. rewrite Hcell.
    destruct (format_two (value_counts col')) as [[]|e] eqn:Hf; [|done].
    simpl. intros [= <-]. split; [done|].
    apply format_two_ok in Hf. unfold value_counts in Hf.
    rewrite length_fmap in Hf. by apply two_values_both. }
  split; [done|]. split; [done|]. split; [|split; [done|split]].
  - intros pid. subst facts'. simpl. rewrite elem_of_select. split.
    + intros (i & Hm & Hi). exists i. split; [done|].
      rewrite list_lookup_fmap in Hm.
      destruct (col !! i) as [c|]; [|done]. simpl in Hm. injection Hm as Hm.
      apply isin_kept in Hm as [-> | ->]; auto.
    + intros (i & Hi & Hc). exists i. split; [|done].
      rewrite list_lookup_fmap. destruct Hc as [-> | ->]; done.
  - split.
    + intros H. destruct (Hok _ H) as (_ & Hc & Hk).
      apply Hboth in Hc as [? _]. apply Hboth in Hk as [? _]. done.
    + intros [Hc Hk]. rewrite Hcell. unfold value_counts.
      rewrite Hu; [done| |]; apply Hboth; auto.
  - intros out H. destruct (Hok _ H) as (-> & Hc & Hk). split; [done|].
    intros x. rewrite Hgrp. by apply Hu.
Qed.

Lemma C7_witness :
  filter_cell ex_cohort "status"
  = Ok (loc_rows
          (isin kept_categories
             <$> [Str "Case"; Str "Control"; Str "Other"; Missing;
                  Str "Control"; Str "Case"]) ex_cohort)
  ↔ Str "Case" ∈ [Str "Case"; Str "Control"; Str "Other"; Missing;
                   Str "Control"; Str "Case"]
    ∧ Str "Control" ∈ [Str "Case"; Str "Control"; Str "Other"; Missing;
                        Str "Control"; Str "Case"].
Proof.
  apply (C7_cohort_filter_keeps_case_and_control ex_cohort "status"
           [Str "Case"; Str "Control"; Str "Other"; Missing;
            Str "Control"; Str "Case"]).
  reflexivity.
Defined.

(** ** From the p-values to the plotted table *)

Section ReportFacts.
Context {lib : StatsLib}.

Lemma elem_of_add_p_adj_log_p (J : list joined_row) (r : result_row) :
  r ∈ add_p_adj_log_p J ↔ ∃ j, j ∈ J ∧ r = corrected_row (length J) j.
Proof.
  unfold add_p_adj_log_p. rewrite list_elem_of_fmap. split.
  - intros (j & -> & Hj). by exists j.
  - intros (j & Hj & ->). by exists j.
Qed.

Lemma elem_of_df_results (T : list result_row) (r' : result_row) :
  r' ∈ df_results T ↔
  ∃ r, r ∈ T ∧ r' = replace_inf_row r ∧ isna (pvalues r) = false
       ∧ isna (replace_inf (log_p r)) = false.
Proof.
  unfold df_results. rewrite list_elem_of_filter, list_elem_of_fmap. split.
  - intros (Hlog & r & -> & Hr). apply list_elem_of_filter in Hr as [Hp Hr].
    exists r. done.
  - intros (r & Hr & -> & Hp & Hlog). split; [done|].
    exists r. split; [done|]. by apply list_elem_of_filter.
Qed.

(** the rows that reach the plot are those with a finite positive p-value,
    and they reach it unchanged *)
Lemma df_results_positive (J : list joined_row) (r' : result_row) :
  r' ∈ df_results (add_p_adj_log_p J) ↔
  ∃ j q, j ∈ J ∧ jpvalues j = Fin q ∧ (0 < q)%Qc
         ∧ r' = ResultRow (jrow j) (Fin q)
                  (Fin (q / Qc_of_nat (length J))) (Fin (- log10 q)).
Proof.
  rewrite elem_of_df_results. split.
  - intros (r & Hr & -> & Hp & Hlog).
    apply elem_of_add_p_adj_log_p in Hr as (j & Hj & ->).
    unfold corrected_row in *. simpl in *.
    destruct (jpvalues j) as [| | |q] eqn:Hq; simpl in *; try done.
    case_bool_decide as Hpos; [|by case_bool_decide].
    exists j, q. repeat split; try done.
    unfold replace_inf_row. simpl. f_equal.
    destruct J as [|? ?]; [by apply elem_of_nil in Hj|done].
  - intros (j & q & Hj & Hq & Hpos & ->).
    exists (corrected_row (length J) j). split.
    { apply elem_of_add_p_adj_log_p. by exists j. }
    unfold corrected_row, replace_inf_row. rewrite Hq. simpl.
    rewrite bool_decide_eq_true_2 by done. simpl. repeat split.
    f_equal. destruct J as [|? ?]; [by apply elem_of_nil in Hj|done].
Qed.

(** C9. A variable whose raw p-value is exactly 0 gets an infinite
    [log_p]; the replacement of the infinities by NaN and the drop of the
    rows whose [log_p] is NaN then remove it from the table that is plotted,
    just as the rows with an undefined p-value are removed: every row that
    reaches the plot has a finite p-value above 0, and every such row of the
    table does reach it. *)
Theorem C9_zero_pvalue_is_dropped_from_plot (variablesDict : list joined_row) :
  (∀ j, j ∈ variablesDict → jpvalues j = Fin 0 →
     log_p (corrected_row (length variablesDict) j) = PInf
     ∧ replace_inf (log_p (corrected_row (length variablesDict) j)) = NaN
     ∧ ∀ r', r' ∈ df_results (add_p_adj_log_p variablesDict) →
             row r' ≠ jrow j ∨ pvalues r' ≠ Fin 0)
  ∧ (∀ r', r' ∈ df_results (add_p_adj_log_p variablesDict) →
       ∃ q, pvalues r' = Fin q ∧ (0 < q)%Qc)
  ∧ (∀ j q, j ∈ variablesDict → jpvalues j = Fin q → (0 < q)%Qc →
       corrected_row (length variablesDict) j
         ∈ df_results (add_p_adj_log_p variablesDict)).
Proof.
  assert (Hpos : ∀ r', r' ∈ df_results (add_p_adj_log_p variablesDict) →
                 ∃ q, pvalues r' = Fin q ∧ (0 < q)%Qc).
  { intros r' (j & q & _ & _ & Hq & ->)%df_results_positive. eauto. }
  split; [|split; [done|]].
  - intros j Hj H0. unfold corrected_row. rewrite H0. simpl.
    repeat split.
    intros r' Hr'. right. destruct (Hpos r' Hr') as (q & -> & Hq).
    intros [= ->]. by apply Qclt_not_eq in Hq.
  - intros j q Hj Hq Hpos'. apply df_results_positive.
    exists j, q. repeat split; try done.
    unfold corrected_row. rewrite Hq. simpl.
    rewrite bool_decide_eq_true_2 by done.
    destruct variablesDict as [|? ?]; [by apply elem_of_nil in Hj|done].
Qed.

End ReportFacts.

Lemma C9_witness :
  log_p (corrected_row (lib := checking_lib) (length ex_joined) ex_zero_row) = PInf
  ∧ replace_inf
      (log_p (corrected_row (lib := checking_lib) (length ex_joined) ex_zero_row))
    = NaN
  ∧ ∀ r', r' ∈ df_results (add_p_adj_log_p (lib := checking_lib) ex_joined) →
          row r' ≠ jrow ex_zero_row ∨ pvalues r' ≠ Fin 0.
Proof.
  apply (proj1 (C9_zero_pvalue_is_dropped_from_plot (lib := checking_lib)
                  ex_joined)).
  - vm_compute. repeat constructor.
  - reflexivity.
Defined.

Section Undefined.
Context {lib : StatsLib}.

Lemma elem_of_joining (vd : list dict_row) (dic : gmap string fval)
    (left_col : dict_row → pyobj) (j : joined_row) :
  j ∈ joining_variablesDict_onCol vd dic left_col ↔
  ∃ r, r ∈ vd ∧ j = JoinedRow r (joined_pvalue dic (left_col r)).
Proof.
  unfold joining_variablesDict_onCol. rewrite list_elem_of_fmap. split.
  - intros (r & -> & Hr). by exists r.
  - intros (r & Hr & ->). by exists r.
Qed.

(** C6. An undefined result stays a missing value all the way: a variable
    whose record is NaN (or that has no record) has NaN as p-value, as
    adjusted p-value and as [log_p] in the corrected table, never a number,
    and no row of the table that is plotted belongs to it. Conversely every
    plotted row shows the p-value that was recorded for its variable, a
    finite positive number. *)
Theorem C6_undefined_results_stay_missing_and_unplotted
    (variablesDict : list dict_row) (dic_pvalues : gmap string fval)
    (left_col : dict_row → pyobj) (a : fval) (table : list result_row) :
  report variablesDict dic_pvalues left_col = Ok (a, table) →
  (∀ r, r ∈ variablesDict →
     (∀ k, left_col r = PyStr k →
        dic_pvalues !! k = Some NaN ∨ dic_pvalues !! k = None) →
     ResultRow r NaN NaN NaN
       ∈ add_p_adj_log_p
           (joining_variablesDict_onCol variablesDict dic_pvalues left_col)
     ∧ ∀ r', r' ∈ table → row r' ≠ r)
  ∧ (∀ r', r' ∈ table →
       ∃ k q, left_col (row r') = PyStr k
              ∧ dic_pvalues !! k = Some (Fin q)
              ∧ pvalues r' = Fin q ∧ (0 < q)%Qc).
Proof.
  unfold report, bonferroni_cell.
  set (J := joining_variablesDict_onCol variablesDict dic_pvalues left_col).
  destruct (adjusted_alpha J) as [a'|e]; simpl; [|done].
  intros [= <- <-].
  assert (Hundef : ∀ r,
    (∀ k, left_col r = PyStr k →
       dic_pvalues !! k = Some NaN ∨ dic_pvalues !! k = None) →
    joined_pvalue dic_pvalues (left_col r) = NaN).
  { intros r Hk. unfold joined_pvalue. destruct (left_col r) as [k| |]; try done.
    by destruct (Hk k eq_refl) as [-> | ->]. }
  split.
  - intros r Hr Hk. split.
    + apply elem_of_add_p_adj_log_p.
      exists (JoinedRow r (joined_pvalue dic_pvalues (left_col r))). split.
      * apply elem_of_joining. by exists r.
      * unfold corrected_row. simpl. by rewrite (Hundef r Hk).
    + intros r' (j & q & Hj & Hq & _ & ->)%df_results_positive. simpl.
      apply elem_of_joining in Hj as (r0 & _ & ->). simpl in *.
      intros ->. by rewrite (Hundef r Hk) in Hq.
  - intros r' (j & q & Hj & Hq & Hpos & ->)%df_results_positive. simpl.
    apply elem_of_joining in Hj as (r0 & _ & ->). simpl in *.
    unfold joined_pvalue in Hq. destruct (left_col r0) as [k| |]; try done.
    exists k, q. repeat split; try done.
    destruct (dic_pvalues !! k) as [v|]; simpl in Hq; [by subst|done].
Qed.

End Undefined.

Lemma C6_witness :
  ResultRow ex_undefined_row NaN NaN NaN
    ∈ add_p_adj_log_p (lib := checking_lib) ex_joined
  ∧ ∀ r', r' ∈ ex_table → row r' ≠ ex_undefined_row.
Proof.
  apply (proj1 (C6_undefined_results_stay_missing_and_unplotted
                  (lib := checking_lib)
                  ex_variablesDict ex_dic_pvalues by_varName ex_alpha ex_table
                  eq_refl)).
  - vm_compute. repeat constructor.
  - intros k [= <-]. left. reflexivity.
Defined.

(** ** Bonferroni cell *)

Section Bonferroni.
Context {lib : StatsLib}.

Lemma n_valid_le (J : list joined_row) : n_valid J ≤ length J.
Proof. apply length_filter. Qed.

Lemma n_valid_lt (J : list joined_row) (j : joined_row) :
  j ∈ J → jpvalues j = NaN → n_valid J < length J.
Proof.
  intros Hj Hnan. unfold n_valid. eapply length_filter_lt; [exact Hj|].
  by rewrite Hnan.
Qed.

(** C1, as the code has it. [adjusted_alpha] is 0.05 divided by the number
    of rows of the joined dictionary, and [p_adj] is the raw p-value divided
    by that same number: N is [len(variablesDict["pvalues"])], which counts
    every row, those with an undefined p-value included. Such rows stay in
    the corrected table, position by position, with an undefined adjusted
    p-value; N is larger than the number of defined p-values as soon as one
    row is undefined. *)
Theorem C1_threshold_and_scaling_use_the_row_count (variablesDict : list joined_row) :
  variablesDict ≠ [] →
  adjusted_alpha variablesDict
    = Ok (Fin (alpha / Qc_of_nat (length variablesDict)))
  ∧ length (add_p_adj_log_p variablesDict) = length variablesDict
  ∧ (∀ i j, variablesDict !! i = Some j →
       add_p_adj_log_p variablesDict !! i
         = Some (corrected_row (length variablesDict) j))
  ∧ (∀ j q, jpvalues j = Fin q →
       p_adj (corrected_row (length variablesDict) j)
         = Fin (q / Qc_of_nat (length variablesDict)))
  ∧ (∀ j, jpvalues j = NaN →
       pvalues (corrected_row (length variablesDict) j) = NaN
       ∧ p_adj (corrected_row (length variablesDict) j) = NaN)
  ∧ (∀ j, j ∈ variablesDict → jpvalues j = NaN →
       n_valid variablesDict < length variablesDict).
Proof.
  intros Hne. repeat split.
  - unfold adjusted_alpha. by destruct variablesDict.
  - unfold add_p_adj_log_p. apply length_fmap.
  - intros i j Hi. unfold add_p_adj_log_p. rewrite list_lookup_fmap, Hi. done.
  - intros j q Hq. unfold corrected_row. simpl. rewrite Hq. simpl.
    by destruct variablesDict.
  - unfold corrected_row. simpl. done.
  - unfold corrected_row. simpl. by rewrite H.
  - intros j Hj Hnan. by eapply n_valid_lt.
Qed.

End Bonferroni.

Lemma C1_counterexample : ¬ scaled_by_valid_count (lib := checking_lib) ex_joined.
Proof.
  intros [H _]. vm_compute in H. discriminate H.
Qed.

Lemma C1_witness :
  adjusted_alpha ex_joined = Ok (Fin (alpha / Qc_of_nat (length ex_joined))).
Proof.
  apply (C1_threshold_and_scaling_use_the_row_count (lib := checking_lib) ex_joined).
  discriminate.
Defined.

(** ** Which names have a record after a screening loop *)

(** a loop that ends normally met no exception *)
Lemma for_each_no_raise {A}
    (step : A → gmap string fval → res (gmap string fval))
    (act : A → res (option (string * fval)))
    (items : list A) (d0 d : gmap string fval) (x : A) :
  (∀ y dic, step y dic = store (act y) dic) →
  for_each step items d0 = (d, None) → x ∈ items → ∃ o, act x = Ok o.
Proof.
  intros Hst. revert d0. induction items as [|y items IH]; intros d0; simpl.
  - intros _ Hx. by apply elem_of_nil in Hx.
  - rewrite Hst. destruct (act y) as [o|e] eqn:Hy; simpl; [|done].
    intros Hrun [->|Hx]%elem_of_cons; [eauto|].
    destruct o as [[? ?]|]; eauto.
Qed.

(** In a loop whose items are filed under a key of their own, the keys of a
    completed run are those of the items that wrote a record. *)
Lemma for_each_keys {A}
    (step : A → gmap string fval → res (gmap string fval))
    (act : A → res (option (string * fval)))
    (items : list A) (d : gmap string fval) (k : string) :
  (∀ y dic, step y dic = store (act y) dic) →
  (∀ y z v w, act y = Ok (Some (k, v)) → act z = Ok (Some (k, w)) → v = w) →
  for_each step items ∅ = (d, None) →
  is_Some (d !! k) ↔ ∃ x v, x ∈ items ∧ act x = Ok (Some (k, v)).
Proof.
  intros Hst Hfun Hrun. split.
  - intros [v Hv].
    destruct (for_each_sound _ _ Hst _ _ _ _ _ _ Hrun Hv) as [?|(x & ? & ?)];
      [done|eauto].
  - intros (x & v & Hx & Hact). exists v.
    eapply (for_each_complete _ _ Hst); [|exact Hrun|eauto].
    intros y w Hy. eapply Hfun; eauto.
Qed.

Lemma list_remove_elem_of (x : string) (l l' : list string) :
  list_remove x l = Ok l' → NoDup l →
  ∀ k, k ∈ l' ↔ k ∈ l ∧ k ≠ x.
Proof.
  revert l'. induction l as [|y l IH]; intros l'; simpl; [done|].
  case_bool_decide as Hy.
  - subst y. intros [= <-] [Hx _]%NoDup_cons k. rewrite elem_of_cons.
    split; [intros Hk; split; [auto|by intros ->]|intros [[?|?] ?]; done].
  - destruct (list_remove x l) as [r|e]; simpl; [|done].
    intros [= <-] [_ Hnd]%NoDup_cons k.
    rewrite !elem_of_cons, (IH r eq_refl Hnd). split.
    + intros [->|[? ?]]; auto.
    + intros [[->|?] ?]; auto.
Qed.

Section Records.
Context {lib : StatsLib}.

Lemma mannwhitneyu_outcome_ok facts_dummies depcol var o :
  mannwhitneyu_outcome facts_dummies depcol var = Ok o →
  ∃ p, o = Some (var, p).
Proof.
  unfold mannwhitneyu_outcome.
  destruct (getcol facts_dummies var) as [col|e]; simpl; [|done].
  destruct ((fun g => dropna g.2) <$> grouped depcol col)
    as [|g1 [|g2 [|g3 gs]]]; simpl; try done.
  destruct (mannwhitneyu g1 g2) as [p|e]; simpl; [intros [= <-]; eauto|].
  destruct (is_ValueError e); [intros [= <-]; eauto|done].
Qed.

Lemma llr_outcome_ok facts dep variablesDict var o :
  llr_outcome facts dep variablesDict var = Ok o → ∃ p, o = Some (var, p).
Proof.
  unfold llr_outcome.
  destruct (llr_design _ _ _ _) as [[[y X]|]|e]; simpl;
    [|intros [= <-]; eauto|done].
  destruct (Logit y X) as [m|e]; simpl; [|done].
  destruct (fit_llr_pvalue m) as [p|e]; simpl; [intros [= <-]; eauto|].
  destruct (is_fit_error e); [intros [= <-]; eauto|done].
Qed.

Lemma fisher_outcome_ok facts_dummies dep k o :
  fisher_outcome facts_dummies dep (PyStr k) = Ok o →
  is_Some (columns facts_dummies !! k) → ∃ p, o = Some (k, p).
Proof.
  unfold fisher_outcome. intros Ho [col Hcol]. rewrite Hcol in Ho.
  destruct (getcol facts_dummies dep) as [depcol|e]; simpl in Ho; [|done].
  case_bool_decide; [injection Ho as <-; eauto|].
  destruct (fisher_exact _) as [r|e]; simpl in Ho; [|done].
  injection Ho as <-. eauto.
Qed.

(** C2, as the code has it. After a loop that ran to its end: the regression
    loop holds exactly one record for every variable of the dictionary other
    than the grouping trait (variable names being unique keys), and none
    besides; the Mann-Whitney loop one for every continuous name, and none
    besides; the Fisher loop one for every listed name that is a string and
    a column of the cohort matrix, and none besides, the other listed names
    having no record. *)
Theorem C2_records_after_a_completed_screening
    (facts : frame) (dependent_var_name : string) :
  (∀ variablesDict d,
     NoDup (varName <$> variablesDict) →
     dic_pvalues_llr facts dependent_var_name variablesDict = (d, None) →
     ∀ k, is_Some (d !! k) ↔
          k ∈ varName <$> variablesDict ∧ k ≠ dependent_var_name)
  ∧ (∀ continuous_varnames d,
       dic_mannwhitneyu facts dependent_var_name continuous_varnames = (d, None) →
       ∀ k, is_Some (d !! k) ↔ k ∈ continuous_varnames)
  ∧ (∀ dummy_categorical_varnames d,
       dic_fisher facts dependent_var_name dummy_categorical_varnames = (d, None) →
       ∀ k, is_Some (d !! k) ↔
            PyStr k ∈ dummy_categorical_varnames
            ∧ is_Some (columns facts !! k)).
Proof.
  split; [|split].
  - intros vd d Hnd. unfold dic_pvalues_llr.
    destruct (list_remove dependent_var_name (varName <$> vd))
      as [names|e] eqn:Hrm; [|done].
    intros Hrun k. rewrite <- (list_remove_elem_of _ _ _ Hrm Hnd k).
    pose proof (llr_step_store facts dependent_var_name vd) as Hst.
    rewrite (for_each_keys _ _ names d k Hst); [|
      intros y z v w Hy Hz;
      pose proof (llr_outcome_key _ _ _ _ _ _ Hy);
      pose proof (llr_outcome_key _ _ _ _ _ _ Hz); congruence | done].
    split.
    + intros (x & v & Hx & Hact).
      by rewrite (llr_outcome_key _ _ _ _ _ _ Hact).
    + intros Hk. destruct (for_each_no_raise _ _ _ _ _ k Hst Hrun Hk) as [o Ho].
      destruct (llr_outcome_ok _ _ _ _ _ Ho) as [p ->]. eauto.
  - intros names d. unfold dic_mannwhitneyu.
    destruct (getcol facts dependent_var_name) as [depcol|e]; [|done].
    intros Hrun k.
    pose proof (mannwhitneyu_step_store facts depcol) as Hst.
    rewrite (for_each_keys _ _ names d k Hst); [|
      intros y z v w Hy Hz;
      pose proof (mannwhitneyu_outcome_key _ _ _ _ _ Hy);
      pose proof (mannwhitneyu_outcome_key _ _ _ _ _ Hz); congruence | done].
    split.
    + intros (x & v & Hx & Hact).
      by rewrite (mannwhitneyu_outcome_key _ _ _ _ _ Hact).
    + intros Hk. destruct (for_each_no_raise _ _ _ _ _ k Hst Hrun Hk) as [o Ho].
      destruct (mannwhitneyu_outcome_ok _ _ _ _ Ho) as [p ->]. eauto.
  - intros names d. unfold dic_fisher. intros Hrun k.
    pose proof (fisher_step_store facts dependent_var_name) as Hst.
    rewrite (for_each_keys _ _ names d k Hst); [|
      intros y z v w Hy Hz;
      destruct (fisher_outcome_key _ _ _ _ _ Hy) as [-> _];
      destruct (fisher_outcome_key _ _ _ _ _ Hz) as [-> _]; congruence | done].
    split.
    + intros (x & v & Hx & Hact).
      by destruct (fisher_outcome_key _ _ _ _ _ Hact) as [-> ?].
    + intros [Hk Hcol].
      destruct (for_each_no_raise _ _ _ _ _ _ Hst Hrun Hk) as [o Ho].
      destruct (fisher_outcome_ok _ _ _ _ Ho Hcol) as [p ->]. eauto.
Qed.

End Records.

Lemma C2_counterexample :
  (dic_fisher (lib := checking_lib) ex_two_groups "status" ex_names).2 = None
  ∧ ¬ one_record_per_listed_name ex_names
        (dic_fisher (lib := checking_lib) ex_two_groups "status" ex_names).1.
Proof.
  split; [reflexivity|].
  intros [Hall _].
  destruct (Hall (PyFloat NaN)) as (k & Hk & _); [|done].
  right. left.
Qed.

Lemma C2_witness :
  is_Some ((dic_fisher (lib := checking_lib) ex_two_groups "status"
              ex_names).1 !! "sex_Male") ↔
  PyStr "sex_Male" ∈ ex_names ∧ is_Some (columns ex_two_groups !! "sex_Male").
Proof.
  apply (C2_records_after_a_completed_screening (lib := checking_lib)
           ex_two_groups "status").
  reflexivity.
Defined.

(** ** Variables without any usable row *)


Section ZeroRows.
Context {lib : StatsLib}.


End ZeroRows.



(** * Further properties of the notebooks *)

(** ** Variables by type and the grouping trait *)

Lemma list_remove_outcome (x : string) (l : list string) :
  (x ∉ l → list_remove x l = Raise ValueError)
  ∧ (x ∈ l → ∃ l', list_remove x l = Ok l' ∧ length l = S (length l')).
Proof.
  induction l as [|y l [IHn IHy]]; simpl.
  - split; [done|]. by intros ?%elem_of_nil.
  - case_bool_decide as Hy.
    + subst y. split; [intros Hn; exfalso; apply Hn; left|eauto].
    + split.
      * intros Hn. rewrite IHn; [done|]. intros ?. apply Hn. by right.
      * intros [?|Hin]%elem_of_cons; [done|].
        destruct (IHy Hin) as (l' & -> & Hlen). simpl.
        eexists. split; [done|]. simpl. by rewrite Hlen.
Qed.

Lemma elem_of_categorical_varnames (vd : list dict_row) (k : string) :
  k ∈ categorical_varnames vd ↔ ∃ r, r ∈ vd ∧ varName r = k ∧ categorical r = true.
Proof.
  unfold categorical_varnames. rewrite list_elem_of_fmap. split.
  - intros (r & -> & [? ?]%list_elem_of_filter). eauto.
  - intros (r & Hr & <- & Hc). exists r. split; [done|].
    by apply list_elem_of_filter.
Qed.

Lemma elem_of_continuous_varnames (vd : list dict_row) (k : string) :
  k ∈ continuous_varnames vd ↔ ∃ r, r ∈ vd ∧ varName r = k ∧ categorical r = false.
Proof.
  unfold continuous_varnames. rewrite list_elem_of_fmap. split.
  - intros (r & -> & [Hc ?]%list_elem_of_filter). exists r.
    repeat split; [done|]. by destruct (categorical r).
  - intros (r & Hr & <- & Hc). exists r. split; [done|].
    apply list_elem_of_filter. split; [|done]. by rewrite Hc.
Qed.

Lemma dependent_var_name_of_ok (vd : list dict_row) (dep : string) :
  dependent_var_name_of vd = Ok dep →
  ∃ r, r ∈ vd ∧ simplified_varName r = "Affection status"%string
       ∧ varName r = dep.
Proof.
  unfold dependent_var_name_of.
  destruct (filter _ vd) as [|r rs] eqn:Hf; [done|]. intros [= <-].
  assert (Hr : r ∈ filter (fun r => simplified_varName r = "Affection status"%string) vd)
    by (rewrite Hf; left).
  apply list_elem_of_filter in Hr as [? ?]. eauto.
Qed.

(** X1. How the cells that type the variables and pick the grouping trait
    end: IndexError when no row of the dictionary has the simplified name
    "Affection status"; otherwise the trait is the name of such a row, and
    its removal from the categorical names raises ValueError when the
    dictionary does not flag it as categorical, and succeeds, leaving the
    continuous names as they are, when it does. *)
Theorem typing_cells_outcome (variablesDict : list dict_row) :
  ((∀ r, r ∈ variablesDict →
         simplified_varName r ≠ "Affection status"%string) →
   typing_cells variablesDict = Raise IndexError)
  ∧ (∀ dep, dependent_var_name_of variablesDict = Ok dep →
       (∃ r, r ∈ variablesDict
             ∧ simplified_varName r = "Affection status"%string
             ∧ varName r = dep)
       ∧ (dep ∉ categorical_varnames variablesDict →
          typing_cells variablesDict = Raise ValueError)
       ∧ (dep ∈ categorical_varnames variablesDict →
          ∃ cat, typing_cells variablesDict
                 = Ok (dep, (cat, continuous_varnames variablesDict))
                 ∧ length (categorical_varnames variablesDict) = S (length cat))).
Proof.
  split.
  - intros Hnone. unfold typing_cells, dependent_var_name_of.
    destruct (filter _ variablesDict) as [|r rs] eqn:Hf; [done|].
    assert (Hr : r ∈ filter (fun r => simplified_varName r = "Affection status"%string)
                        variablesDict) by (rewrite Hf; left).
    apply list_elem_of_filter in Hr as [Hs Hr]. by destruct (Hnone r Hr).
  - intros dep Hdep. split; [by apply dependent_var_name_of_ok|].
    unfold typing_cells. rewrite Hdep. simpl.
    destruct (list_remove_outcome dep (categorical_varnames variablesDict))
      as [Hn Hy].
    split.
    + intros Hnin. by rewrite (Hn Hnin).
    + intros Hin. destruct (Hy Hin) as (cat & -> & Hlen). simpl. eauto.
Qed.

Lemma typing_cells_witness :
  typing_cells ex_variablesDict
  = Ok ("status"%string, ([], ["age"; "fev1"; "distance"]%string)).
Proof.
  destruct (proj2 (typing_cells_outcome ex_variablesDict) "status"%string eq_refl)
    as (_ & _ & Hok).
  destruct Hok as (cat & Hcat & Hlen).
  - vm_compute. repeat constructor.
  - destruct cat; [exact Hcat|discriminate Hlen].
Defined.

Lemma NoDup_fmap_elem_inj {A B} (f : A → B) (l : list A) (x y : A) :
  NoDup (f <$> l) → x ∈ l → y ∈ l → f x = f y → x = y.
Proof.
  induction l as [|z l IH]; [by intros _ ?%elem_of_nil|].
  rewrite fmap_cons, NoDup_cons.
  intros [Hz Hnd] [->|Hx]%elem_of_cons [->|Hy]%elem_of_cons Hf; auto.
  - exfalso. apply Hz. rewrite Hf. by apply list_elem_of_fmap_2.
  - exfalso. apply Hz. rewrite <- Hf. by apply list_elem_of_fmap_2.
Qed.

Lemma NoDup_fmap_filter {A B} (f : A → B) (P : A → Prop)
    `{∀ x, Decision (P x)} (l : list A) :
  NoDup (f <$> l) → NoDup (f <$> filter P l).
Proof.
  induction l as [|z l IH]; [done|].
  rewrite fmap_cons, NoDup_cons, filter_cons. intros [Hz Hnd].
  destruct (decide (P z)); [|auto].
  rewrite fmap_cons, NoDup_cons. split; [|auto].
  intros (y & Hy & [_ Hin]%list_elem_of_filter)%list_elem_of_fmap.
  apply Hz. rewrite Hy. by apply list_elem_of_fmap_2.
Qed.

Lemma length_filter_both {A} (P : A → Prop) `{∀ x, Decision (P x)} (l : list A) :
  length (filter P l) + length (filter (fun x => ¬ P x) l) = length l.
Proof.
  induction l as [|z l IH]; [done|]. rewrite !filter_cons.
  destruct (decide (P z)); [rewrite decide_False by tauto|rewrite decide_True by done];
    simpl; lia.
Qed.

(** X2. When the dictionary has unique variable names and the typing cells
    complete, every variable other than the grouping trait is in exactly
    one of the lists the two screening loops run over, the grouping trait
    is in neither, and the two lists together hold one name less than the
    dictionary. *)
Theorem typing_cells_split_the_variables
    (variablesDict : list dict_row) (dep : string) (cat cont : list string) :
  NoDup (varName <$> variablesDict) →
  typing_cells variablesDict = Ok (dep, (cat, cont)) →
  (dep ∉ cat) ∧ (dep ∉ cont)
  ∧ (∀ k, k ∈ (varName <$> variablesDict) → k ≠ dep →
          (k ∈ cat ∧ (k ∉ cont)) ∨ ((k ∉ cat) ∧ k ∈ cont))
  ∧ (∀ k, k ∈ cat ∨ k ∈ cont → k ∈ (varName <$> variablesDict))
  ∧ S (length cat + length cont) = length variablesDict.
Proof.
  intros Hnd. unfold typing_cells.
  destruct (dependent_var_name_of variablesDict) as [d|e] eqn:Hd; simpl; [|done].
  destruct (list_remove d (categorical_varnames variablesDict)) as [c|e] eqn:Hrm;
    simpl; [|done].
  intros [= -> -> <-].
  assert (Hndc : NoDup (categorical_varnames variablesDict))
    by (by apply NoDup_fmap_filter).
  pose proof (list_remove_elem_of _ _ _ Hrm Hndc) as Hcat.
  assert (Hdcat : dep ∈ categorical_varnames variablesDict).
  { destruct (decide (dep ∈ categorical_varnames variablesDict)) as [|Hn]; [done|].
    apply (proj1 (list_remove_outcome dep _)) in Hn. congruence. }
  assert (Hexcl : ∀ k, k ∈ categorical_varnames variablesDict →
                       k ∈ continuous_varnames variablesDict → False).
  { intros k (r1 & Hr1 & Hk1 & Hc1)%elem_of_categorical_varnames
             (r2 & Hr2 & Hk2 & Hc2)%elem_of_continuous_varnames.
    assert (r1 = r2) as ->
      by (apply (NoDup_fmap_elem_inj varName variablesDict); [done..|congruence]).
    congruence. }
  split; [|split; [|split; [|split]]].
  - rewrite Hcat. tauto.
  - intros Hc. eapply Hexcl; eauto.
  - intros k (r & -> & Hr)%list_elem_of_fmap Hne.
    destruct (categorical r) eqn:Hc.
    + left. split.
      * apply Hcat. split; [|done]. apply elem_of_categorical_varnames. eauto.
      * intros Hcont. eapply (Hexcl (varName r)); [|done].
        apply elem_of_categorical_varnames. eauto.
    + right. split.
      * intros [Hin _]%Hcat. eapply (Hexcl (varName r)); [done|].
        apply elem_of_continuous_varnames. eauto.
      * apply elem_of_continuous_varnames. eauto.
  - intros k [[Hk _]%Hcat|Hk].
    + apply elem_of_categorical_varnames in Hk as (r & ? & <- & _).
      by apply list_elem_of_fmap_2.
    + apply elem_of_continuous_varnames in Hk as (r & ? & <- & _).
      by apply list_elem_of_fmap_2.
  - destruct (proj2 (list_remove_outcome dep (categorical_varnames variablesDict))
                Hdcat) as (c' & Hc' & Hlen).
    rewrite Hrm in Hc'. injection Hc' as <-.
    unfold categorical_varnames, continuous_varnames in *.
    rewrite !length_fmap in *.
    pose proof (length_filter_both (fun r => categorical r = true) variablesDict).
    lia.
Qed.

Lemma typing_cells_split_witness :
  ("status"%string ∉ ([] : list string))
  ∧ ("status"%string ∉ ["age"; "fev1"; "distance"]%string)
  ∧ (∀ k, k ∈ (varName <$> ex_variablesDict) → k ≠ "status"%string →
          (k ∈ ([] : list string) ∧ (k ∉ ["age"; "fev1"; "distance"]%string))
          ∨ ((k ∉ ([] : list string)) ∧ k ∈ ["age"; "fev1"; "distance"]%string))
  ∧ (∀ k, k ∈ ([] : list string) ∨ k ∈ ["age"; "fev1"; "distance"]%string →
          k ∈ (varName <$> ex_variablesDict))
  ∧ S (length ([] : list string) + length ["age"; "fev1"; "distance"]%string)
    = length ex_variablesDict.
Proof.
  apply (typing_cells_split_the_variables ex_variablesDict "status"%string).
  - apply (bool_decide_unpack _). vm_compute. exact I.
  - reflexivity.
Defined.

(** ** Row selections on the cohort *)

Lemma select_nil_r {A} (mask : list bool) : select mask ([] : list A) = [].
Proof. by destruct mask. Qed.

Lemma select_length {A} (mask : list bool) (l : list A) :
  length l = length mask →
  length (select mask l) = length (filter (fun b => b = true) mask).
Proof.
  revert l. induction mask as [|b mask IH]; intros [|x l]; try done.
  intros [= Hlen]. cbn [select]. rewrite filter_cons.
  destruct b; [rewrite decide_True by done|rewrite decide_False by done];
    simpl; by rewrite IH.
Qed.

(** selecting the rows with an observed value and then those with a kept
    value is selecting those with a kept value *)
Lemma select_notna_then_isin {A} (vals : list string) (d : list cell) (c : list A) :
  select (isin vals <$> select (notna <$> d) d) (select (notna <$> d) c)
  = select (isin vals <$> d) c.
Proof.
  revert c. induction d as [|x d IH]; intros c; [done|].
  rewrite !fmap_cons. destruct c as [|y c].
  - cbn [select]. by rewrite !select_nil_r.
  - cbn [select]. destruct (notna x) eqn:Hx.
    + rewrite fmap_cons. cbn [select]. by rewrite IH.
    + destruct x; done.
Qed.

Lemma all_notna_one (c : list cell) (n : nat) :
  length c = n → all_notna [c] n = notna <$> c.
Proof.
  intros <-. simpl. induction c as [|x c IH]; [done|].
  simpl. rewrite andb_true_r. f_equal. apply IH.
Qed.

(** X3. On a rectangular cohort, dropping first the rows where the grouping
    trait is missing ([dropna(subset=...)]) and then keeping the "Case" and
    "Control" rows gives the same cohort as keeping the "Case" and
    "Control" rows at once: [isin] already leaves the missing values out. *)
Theorem dropna_then_filter_is_filter
    (facts : frame) (dependent_var_name : string) (depcol : list cell) :
  rectangular facts →
  getcol facts dependent_var_name = Ok depcol →
  ∃ facts1,
    dropna_subset facts [dependent_var_name] = Ok facts1
    ∧ facts1 = loc_rows (notna <$> depcol) facts
    ∧ cohort_filter facts1 dependent_var_name
      = cohort_filter facts dependent_var_name.
Proof.
  intros Hrect Hdep.
  assert (Hlen : length depcol = length (index facts)).
  { unfold getcol in Hdep.
    destruct (columns facts !! dependent_var_name) as [c|] eqn:Hc; [|done].
    injection Hdep as <-. by apply (Hrect dependent_var_name). }
  exists (loc_rows (notna <$> depcol) facts). split; [|split; [done|]].
  - unfold dropna_subset. cbn [getcols]. rewrite Hdep. cbn [bind].
    by rewrite all_notna_one.
  - unfold cohort_filter, mask_dependent_var_name, getcol in *.
    simpl. rewrite lookup_fmap.
    destruct (columns facts !! dependent_var_name) as [c|]; [|done].
    injection Hdep as ->. simpl. f_equal. unfold loc_rows. simpl. f_equal.
    + apply select_notna_then_isin.
    + rewrite <- map_fmap_compose. apply map_fmap_ext.
      intros k c _. apply select_notna_then_isin.
Qed.

Lemma ex_cohort_rectangular : rectangular ex_cohort.
Proof.
  intros name col. unfold ex_cohort. simpl.
  rewrite !lookup_insert, lookup_empty.
  repeat case_decide; intros [= <-]; reflexivity.
Qed.

Lemma dropna_then_filter_witness :
  ∃ facts1,
    dropna_subset ex_cohort ["status"%string] = Ok facts1
    ∧ facts1 = loc_rows (notna <$> [Str "Case"; Str "Control"; Str "Other";
                                     Missing; Str "Control"; Str "Case"])
                 ex_cohort
    ∧ cohort_filter facts1 "status" = cohort_filter ex_cohort "status".
Proof.
  apply (dropna_then_filter_is_filter ex_cohort "status"
           [Str "Case"; Str "Control"; Str "Other"; Missing;
            Str "Control"; Str "Case"]).
  - exact ex_cohort_rectangular.
  - reflexivity.
Defined.

(** X4. The cohort filter keeps the cohort rectangular: after it every
    column still has one cell per subject of the index, and the number of
    subjects is the number of "Case" and "Control" cells of the grouping
    column, never more than before. *)
Theorem cohort_filter_keeps_rectangular
    (facts facts' : frame) (dependent_var_name : string) (depcol : list cell) :
  rectangular facts →
  getcol facts dependent_var_name = Ok depcol →
  cohort_filter facts dependent_var_name = Ok facts' →
  rectangular facts'
  ∧ length (index facts')
    = length (filter (fun c => c = Str "Case" ∨ c = Str "Control") depcol)
  ∧ length (index facts') ≤ length (index facts)
  ∧ dom (columns facts') = dom (columns facts).
Proof.
  intros Hrect Hdep. unfold cohort_filter, mask_dependent_var_name.
  rewrite Hdep. simpl. intros [= <-].
  assert (Hlen : length depcol = length (index facts)).
  { unfold getcol in Hdep.
    destruct (columns facts !! dependent_var_name) as [c|] eqn:Hc; [|done].
    injection Hdep as <-. by apply (Hrect dependent_var_name). }
  set (mask := isin kept_categories <$> depcol).
  assert (Hmask : length mask = length (index facts))
    by (unfold mask; by rewrite length_fmap).
  assert (Hidx : length (select mask (index facts))
                 = length (filter (fun c => c = Str "Case" ∨ c = Str "Control") depcol)).
  { rewrite select_length by (by rewrite Hmask).
    rewrite <- (select_length mask depcol) by (unfold mask; by rewrite length_fmap).
    unfold mask. rewrite select_fmap_filter. f_equal.
    apply list_filter_iff. intros c. apply isin_kept. }
  split; [|split; [done|split]].
  - intros name col. simpl. rewrite lookup_fmap.
    destruct (columns facts !! name) as [c|] eqn:Hc; [|done].
    simpl. intros [= <-].
    rewrite !select_length; [done| by rewrite Hmask|].
    rewrite Hmask. by apply (Hrect name).
  - simpl. rewrite select_length by done.
    rewrite <- Hmask. apply length_filter.
  - simpl. apply dom_fmap_L.
Qed.

Lemma cohort_filter_rectangular_witness :
  rectangular (loc_rows [true; true; false; false; true; true] ex_cohort)
  ∧ length (index (loc_rows [true; true; false; false; true; true] ex_cohort))
    = length (filter (fun c => c = Str "Case" ∨ c = Str "Control")
                [Str "Case"; Str "Control"; Str "Other"; Missing;
                 Str "Control"; Str "Case"])
  ∧ length (index (loc_rows [true; true; false; false; true; true] ex_cohort))
    ≤ length (index ex_cohort)
  ∧ dom (columns (loc_rows [true; true; false; false; true; true] ex_cohort))
    = dom (columns ex_cohort).
Proof.
  apply (cohort_filter_keeps_rectangular ex_cohort _ "status"
           [Str "Case"; Str "Control"; Str "Other"; Missing;
            Str "Control"; Str "Case"]).
  - exact ex_cohort_rectangular.
  - reflexivity.
  - reflexivity.
Defined.

(** ** The two samples of the Mann-Whitney loop *)

Lemma group_rows_cons (k d x : cell) (depcol col : list cell) :
  group_rows k (d :: depcol) (x :: col)
  = if bool_decide (d = k) then x :: group_rows k depcol col
    else group_rows k depcol col.
Proof. done. Qed.

Lemma group_rows_case_control (depcol col : list cell) :
  length col = length depcol →
  (∀ c, c ∈ depcol → c = Str "Case" ∨ c = Str "Control") →
  group_rows (Str "Case") depcol col ++ group_rows (Str "Control") depcol col
  ≡ₚ col.
Proof.
  revert col. induction depcol as [|d depcol IH]; intros [|x col]; try done.
  intros [= Hlen] Hall. rewrite !group_rows_cons.
  assert (Hrest : ∀ c, c ∈ depcol → c = Str "Case" ∨ c = Str "Control")
    by (intros; apply Hall; by right).
  destruct (Hall d) as [-> | ->]; [left| |].
  - rewrite bool_decide_eq_true_2, bool_decide_eq_false_2 by done.
    simpl. by rewrite IH.
  - rewrite bool_decide_eq_false_2, bool_decide_eq_true_2 by done.
    rewrite <- Permutation_middle. by rewrite IH.
Qed.

Section Samples.
Context {lib : StatsLib}.

(** X5. On a filtered cohort holding both groups, the loop over the
    continuous variables hands to the test, as first sample, the observed
    values of the variable among the "Case" subjects and, as second sample,
    those among the "Control" subjects; the two samples together are the
    observed values of the variable, each counted once, and the record of
    the variable is what the test returns for them (NaN on ValueError). *)
Theorem mannwhitneyu_samples_are_the_two_groups
    (facts_dummies : frame) (depcol col : list cell) (var : string) :
  columns facts_dummies !! var = Some col →
  length col = length depcol →
  (∀ c, c ∈ depcol → c = Str "Case" ∨ c = Str "Control") →
  Str "Case" ∈ depcol → Str "Control" ∈ depcol →
  let cases := dropna (group_rows (Str "Case") depcol col) in
  let controls := dropna (group_rows (Str "Control") depcol col) in
  cases ++ controls ≡ₚ dropna col
  ∧ ∀ dic, mannwhitneyu_step facts_dummies depcol var dic
           = store (caught_as_nan is_ValueError var (mannwhitneyu cases controls))
               dic.
Proof.
  intros Hcol Hlen Hall Hcase Hcontrol cases controls. split.
  - unfold cases, controls, dropna. rewrite <- filter_app.
    by rewrite group_rows_case_control.
  - intros dic. rewrite mannwhitneyu_step_store.
    unfold mannwhitneyu_outcome, getcol. rewrite Hcol. cbn [bind].
    unfold grouped. rewrite <- list_fmap_compose.
    rewrite unique_sorted_case_control; [done..|].
    intros c Hc. destruct (Hall c Hc); auto.
Qed.

End Samples.

Lemma mannwhitneyu_samples_witness :
  dropna (group_rows (Str "Case")
            [Str "Case"; Str "Control"; Str "Control"; Str "Case"]
            [int 61; int 54; Missing; int 66])
  ++ dropna (group_rows (Str "Control")
               [Str "Case"; Str "Control"; Str "Control"; Str "Case"]
               [int 61; int 54; Missing; int 66])
  ≡ₚ dropna [int 61; int 54; Missing; int 66].
Proof.
  apply (mannwhitneyu_samples_are_the_two_groups (lib := checking_lib)
           ex_two_groups
           [Str "Case"; Str "Control"; Str "Control"; Str "Case"]
           [int 61; int 54; Missing; int 66] "age").
  - reflexivity.
  - reflexivity.
  - intros c Hc. apply (bool_decide_unpack _).
    revert c Hc. apply Forall_forall. apply (bool_decide_unpack _).
    vm_compute. exact I.
  - apply (bool_decide_unpack _). vm_compute. exact I.
  - apply (bool_decide_unpack _). vm_compute. exact I.
Defined.

(** ** Contingency tables *)

Lemma sum_list_fmap_plus {A} (f g : A → nat) (l : list A) :
  sum_list ((fun x => f x + g x) <$> l) = sum_list (f <$> l) + sum_list (g <$> l).
Proof. induction l as [|x l IH]; csimpl; [done|]. rewrite IH. simpl. lia. Qed.

Lemma sum_list_indicator {K} `{EqDecision K} (k0 : K) (L : list K) :
  NoDup L → k0 ∈ L →
  sum_list ((fun k => if decide (k0 = k) then 1 else 0) <$> L) = 1.
Proof.
  induction L as [|k L IH]; [by intros _ ?%elem_of_nil|].
  rewrite NoDup_cons. intros [Hk Hnd] Hin. csimpl.
  destruct (decide (k0 = k)) as [->|Hne].
  - assert (sum_list ((fun k1 => if decide (k = k1) then 1 else 0) <$> L) = 0)
      as ->; [|done].
    clear IH Hin Hnd. induction L as [|k1 L IH]; [done|]. csimpl.
    rewrite decide_False by (intros ->; apply Hk; left).
    apply IH. intros ?. apply Hk. by right.
  - apply elem_of_cons in Hin as [?|Hin]; [done|]. by rewrite IH.
Qed.

(** counting the elements of a list key by key counts each of them once *)
Lemma sum_counts_by_key {A K} `{EqDecision K} (key : A → K) (L : list K)
    (ps : list A) :
  NoDup L → (∀ p, p ∈ ps → key p ∈ L) →
  sum_list ((fun k => length (filter (fun p => key p = k) ps)) <$> L)
  = length ps.
Proof.
  intros Hnd. induction ps as [|p ps IH]; intros Hin.
  - csimpl. clear. induction L; csimpl; auto.
  - assert (Hp : key p ∈ L) by (apply Hin; left).
    transitivity
      (sum_list ((fun k => (if decide (key p = k) then 1 else 0)
                           + length (filter (fun p => key p = k) ps)) <$> L)).
    + f_equal. apply list_fmap_ext. intros _ k _. rewrite filter_cons.
      by destruct (decide (key p = k)).
    + rewrite sum_list_fmap_plus, (sum_list_indicator (key p) L Hnd Hp).
      rewrite IH by (intros; apply Hin; by right). done.
Qed.

Lemma table_total_crosstab (a b : list cell) :
  table_total (crosstab a b) = length (both_observed a b).
Proof.
  unfold table_total, crosstab. simpl.
  set (ps := both_observed a b).
  rewrite <- list_fmap_compose.
  rewrite <- (sum_counts_by_key fst (unique_sorted ps.*1) ps).
  - f_equal. apply list_fmap_ext. intros _ r _. simpl.
    rewrite <- (sum_counts_by_key snd (unique_sorted ps.*2)
                  (filter (fun p => p.1 = r) ps)).
    + f_equal. apply list_fmap_ext. intros _ c _. f_equal.
      rewrite list_filter_filter. apply list_filter_iff.
      intros [x y]. simpl. split; [by intros [= -> ->]|by intros [-> ->]].
    + apply NoDup_unique_sorted.
    + intros p [_ Hp]%list_elem_of_filter. apply elem_of_unique_sorted.
      split; [by apply list_elem_of_fmap_2|].
      apply list_elem_of_filter in Hp as [Hn _].
      apply andb_true_iff in Hn as [_ Hn]. by intros Hm; rewrite Hm in Hn.
  - apply NoDup_unique_sorted.
  - intros p Hp. apply elem_of_unique_sorted.
    split; [by apply list_elem_of_fmap_2|].
    apply list_elem_of_filter in Hp as [Hn _].
    apply andb_true_iff in Hn as [Hn _]. by intros Hm; rewrite Hm in Hn.
Qed.

(** X6. The cells of a contingency table add up to the number of rows
    where both columns are observed: every such row is counted in exactly
    one cell, and a row with a missing value in none. The table has one
    line per observed value of the first column and one column per observed
    value of the second. *)
Theorem crosstab_counts_every_observed_row_once (a b : list cell) :
  table_total (crosstab a b) = length (both_observed a b)
  ∧ length (counts (crosstab a b)) = (shape (crosstab a b)).1
  ∧ ∀ line, line ∈ counts (crosstab a b) →
            length line = (shape (crosstab a b)).2.
Proof.
  split; [apply table_total_crosstab|].
  unfold crosstab, shape. simpl. split.
  - by rewrite length_fmap.
  - intros line (r & -> & _)%list_elem_of_fmap. by rewrite length_fmap.
Qed.

(** ** Indicator columns *)

Lemma Num_1_ne_0 : Num 1 ≠ Num 0.
Proof. intros H. by apply (bool_decide_eq_false_1 (Num 1 = Num 0)) in H. Qed.

Lemma filter_all {A} (P : A → Prop) `{∀ x, Decision (P x)} (l : list A) :
  (∀ x, x ∈ l → P x) → filter P l = l.
Proof.
  induction l as [|x l IH]; [done|]. intros Hall.
  rewrite filter_cons, decide_True by (apply Hall; left).
  f_equal. apply IH. intros; apply Hall; by right.
Qed.

(** the indicator column of one level *)
Lemma get_dummies_drop_first_elem (var : string) (col : list cell)
    (d : colname * list cell) :
  d ∈ get_dummies_drop_first var col →
  ∃ l0 l, l0 ∈ col ∧ l ∈ col ∧ l0 ≠ Missing ∧ l ≠ Missing ∧ l0 ≠ l
          ∧ head (unique_sorted col) = Some l0
          ∧ d = (Dummy var l,
                 (fun c => if bool_decide (c = l) then Num 1 else Num 0) <$> col).
Proof.
  unfold get_dummies_drop_first, get_dummies. rewrite <- fmap_drop.
  intros (l & -> & Hl)%list_elem_of_fmap.
  pose proof (NoDup_unique_sorted col) as Hnd.
  pose proof (elem_of_unique_sorted) as Hin.
  destruct (unique_sorted col) as [|l0 rest] eqn:Hu; [by apply elem_of_nil in Hl|].
  simpl in Hl. apply NoDup_cons in Hnd as [Hl0 _].
  assert (H0 : l0 ∈ col ∧ l0 ≠ Missing)
    by (apply Hin; rewrite Hu; left).
  assert (H1 : l ∈ col ∧ l ≠ Missing)
    by (apply Hin; rewrite Hu; by right).
  exists l0, l. repeat split; try tauto.
  intros ->. done.
Qed.

Lemma get_dummies_drop_first_values (var : string) (col : list cell)
    (d : colname * list cell) :
  d ∈ get_dummies_drop_first var col →
  length d.2 = length col
  ∧ (∀ c, c ∈ d.2 → c = Num 1 ∨ c = Num 0)
  ∧ Num 1 ∈ d.2 ∧ Num 0 ∈ d.2.
Proof.
  intros (l0 & l & Hl0 & Hl & Hm0 & Hm & Hne & Hhead & ->)%get_dummies_drop_first_elem.
  simpl. repeat split.
  - by rewrite length_fmap.
  - intros c (x & -> & _)%list_elem_of_fmap. case_bool_decide; auto.
  - apply list_elem_of_fmap. exists l. split; [|done].
    by rewrite bool_decide_eq_true_2.
  - apply list_elem_of_fmap. exists l0. split; [|done].
    by rewrite bool_decide_eq_false_2.
Qed.

(** X7. Each indicator column that [get_dummies(..., drop_first=True)]
    makes from a categorical column belongs to an observed level other than
    the first one, has one cell per subject and no missing cell: it is 1
    where the subject has that level and 0 everywhere else, also where the
    category of the subject is missing. It holds both a 1 and a 0. *)
Theorem get_dummies_drop_first_codes_missing_as_zero
    (var : string) (col : list cell) (d : colname * list cell) :
  d ∈ get_dummies_drop_first var col →
  ∃ l, d.1 = Dummy var l ∧ l ∈ col ∧ l ≠ Missing
       ∧ head (unique_sorted col) ≠ Some l
       ∧ length d.2 = length col
       ∧ (∀ i c, col !! i = Some c →
            d.2 !! i = Some (if bool_decide (c = l) then Num 1 else Num 0))
       ∧ (∀ i, col !! i = Some Missing → d.2 !! i = Some (Num 0))
       ∧ (∀ c, c ∈ d.2 → c = Num 1 ∨ c = Num 0)
       ∧ Num 1 ∈ d.2 ∧ Num 0 ∈ d.2.
Proof.
  intros (l0 & l & Hl0 & Hl & Hm0 & Hm & Hne & Hhead & ->)%get_dummies_drop_first_elem.
  exists l. simpl. repeat split; try done.
  - rewrite Hhead. congruence.
  - by rewrite length_fmap.
  - intros i c Hi. by rewrite list_lookup_fmap, Hi.
  - intros i Hi. rewrite list_lookup_fmap, Hi. simpl.
    by rewrite bool_decide_eq_false_2.
  - intros c (x & -> & _)%list_elem_of_fmap. case_bool_decide; auto.
  - apply list_elem_of_fmap. exists l. split; [|done].
    by rewrite bool_decide_eq_true_2.
  - apply list_elem_of_fmap. exists l0. split; [|done].
    by rewrite bool_decide_eq_false_2.
Qed.

Lemma get_dummies_drop_first_witness :
  ∃ l, (Dummy "sex" (Str "Male"),
        [Num 1; Num 0; Num 0; Num 1; Num 0]).1 = Dummy "sex" l
       ∧ l ∈ [Str "Male"; Str "Female"; Missing; Str "Male"; Str "Female"]
       ∧ l ≠ Missing
       ∧ head (unique_sorted
                 [Str "Male"; Str "Female"; Missing; Str "Male"; Str "Female"])
         ≠ Some l
       ∧ length (Dummy "sex" (Str "Male"),
                 [Num 1; Num 0; Num 0; Num 1; Num 0]).2
         = length [Str "Male"; Str "Female"; Missing; Str "Male"; Str "Female"]
       ∧ (∀ i c, [Str "Male"; Str "Female"; Missing; Str "Male"; Str "Female"]
                   !! i = Some c →
            (Dummy "sex" (Str "Male"), [Num 1; Num 0; Num 0; Num 1; Num 0]).2
              !! i
            = Some (if bool_decide (c = l) then Num 1 else Num 0))
       ∧ (∀ i, [Str "Male"; Str "Female"; Missing; Str "Male"; Str "Female"]
                 !! i = Some Missing →
            (Dummy "sex" (Str "Male"), [Num 1; Num 0; Num 0; Num 1; Num 0]).2
              !! i
            = Some (Num 0))
       ∧ (∀ c, c ∈ (Dummy "sex" (Str "Male"),
                    [Num 1; Num 0; Num 0; Num 1; Num 0]).2 →
               c = Num 1 ∨ c = Num 0)
       ∧ Num 1 ∈ (Dummy "sex" (Str "Male"),
                  [Num 1; Num 0; Num 0; Num 1; Num 0]).2
       ∧ Num 0 ∈ (Dummy "sex" (Str "Male"),
                  [Num 1; Num 0; Num 0; Num 1; Num 0]).2.
Proof.
  apply (get_dummies_drop_first_codes_missing_as_zero "sex"
           [Str "Male"; Str "Female"; Missing; Str "Male"; Str "Female"]).
  vm_compute. left.
Defined.

Lemma length_two_values {A} (a b : A) (l : list A) :
  NoDup l → (∀ x, x ∈ l ↔ x = a ∨ x = b) → a ≠ b → length l = 2.
Proof. intros Hnd Hl Hab. by destruct (NoDup_two a b l Hnd Hl Hab) as [-> | ->]. Qed.

(** X8. Against the grouping column of a filtered cohort holding both
    groups, the contingency table of such an indicator column always has
    two lines and two columns: the branch of the Fisher loop that stores
    NaN for a table of shape (1, 2) is never taken for it, and the subjects
    with a missing category are counted in the table, on the line of the
    zeros. *)
Theorem crosstab_of_an_indicator_is_2x2
    (var : string) (col depcol : list cell) (d : colname * list cell) :
  d ∈ get_dummies_drop_first var col →
  length col = length depcol →
  (∀ c, c ∈ depcol → c = Str "Case" ∨ c = Str "Control") →
  Str "Case" ∈ depcol → Str "Control" ∈ depcol →
  shape (crosstab d.2 depcol) = (2, 2)%nat
  ∧ table_total (crosstab d.2 depcol) = length col.
Proof.
  intros Hd Hlen Hall Hcase Hcontrol.
  destruct (get_dummies_drop_first_values var col d Hd)
    as (Hlen' & Hvals & H1 & H0).
  assert (Hobs : both_observed d.2 depcol = zip d.2 depcol).
  { unfold both_observed. apply filter_all. intros [x y] Hxy. simpl.
    apply elem_of_zip_l in Hxy as Hx. apply elem_of_zip_r in Hxy as Hy.
    simpl in *. destruct (Hvals x Hx) as [-> | ->];
      destruct (Hall y Hy) as [-> | ->]; done. }
  split.
  - unfold shape, crosstab. simpl. rewrite Hobs.
    rewrite fst_zip, snd_zip by lia. f_equal.
    + apply (length_two_values (Num 1) (Num 0));
        [apply NoDup_unique_sorted| |apply Num_1_ne_0].
      intros x. rewrite elem_of_unique_sorted. split.
      * intros [Hx _]. by apply Hvals.
      * intros [-> | ->]; done.
    + rewrite unique_sorted_case_control; [done..|].
      intros c Hc. destruct (Hall c Hc); auto.
  - rewrite table_total_crosstab.
    rewrite Hobs, length_zip_with. lia.
Qed.

Lemma crosstab_of_an_indicator_witness :
  shape (crosstab (Dummy "sex" (Str "Male"), [Num 1; Num 0; Num 0; Num 1]).2
           [Str "Case"; Str "Control"; Str "Control"; Str "Case"])
  = (2, 2)%nat
  ∧ table_total
      (crosstab (Dummy "sex" (Str "Male"), [Num 1; Num 0; Num 0; Num 1]).2
         [Str "Case"; Str "Control"; Str "Control"; Str "Case"])
    = length [Str "Male"; Str "Female"; Missing; Str "Male"].
Proof.
  apply (crosstab_of_an_indicator_is_2x2 "sex"
           [Str "Male"; Str "Female"; Missing; Str "Male"]).
  - vm_compute. left.
  - reflexivity.
  - apply Forall_forall. apply (bool_decide_unpack _). vm_compute. exact I.
  - apply (bool_decide_unpack _). vm_compute. exact I.
  - apply (bool_decide_unpack _). vm_compute. exact I.
Defined.

(** ** What the regression loop hands to Logit *)

Lemma get_dummies_names (var : string) (col : list cell) (p : colname * list cell) :
  p ∈ get_dummies var col → ∃ l, p.1 = Dummy var l.
Proof.
  unfold get_dummies. intros (l & -> & _)%list_elem_of_fmap. eauto.
Qed.

Lemma removelast_cons {A} (x y : A) (l : list A) :
  removelast (x :: y :: l) = x :: removelast (y :: l).
Proof. done. Qed.

Lemma elem_of_removelast {A} (l : list A) (x : A) :
  x ∈ removelast l → x ∈ l.
Proof.
  induction l as [|y [|z l] IH]; [done|by intros ?%elem_of_nil|].
  rewrite removelast_cons. intros [->|Hx]%elem_of_cons; [left|right; auto].
Qed.

Lemma removelast_fmap {A B} (f : A → B) (l : list A) :
  removelast (f <$> l) = f <$> removelast l.
Proof.
  induction l as [|y [|z l] IH]; [done..|].
  rewrite !fmap_cons, !removelast_cons, fmap_cons. f_equal. apply IH.
Qed.

Lemma length_removelast {A} (l : list A) :
  length (removelast l) = pred (length l).
Proof.
  induction l as [|y [|z l] IH]; [done..|].
  rewrite removelast_cons. simpl in *. by rewrite IH.
Qed.

(** the codes of a column whose categories are "Case" and "Control" *)
Lemma cat_codes_case_control (col : list cell) :
  cat_codes [Str "Case"; Str "Control"] col
  = (fun c => if bool_decide (c = Str "Case") then 0
              else if bool_decide (c = Str "Control") then 1 else -1)%Z <$> col.
Proof.
  unfold cat_codes. apply list_fmap_ext. intros _ c _. simpl.
  destruct (decide (Str "Case" = c)) as [<-|Hc].
  - by rewrite !bool_decide_eq_true_2.
  - rewrite (bool_decide_eq_false_2 (Str "Case" = c)) by done.
    rewrite (bool_decide_eq_false_2 (c = Str "Case")) by done.
    destruct (decide (Str "Control" = c)) as [<-|Hk].
    + by rewrite !bool_decide_eq_true_2.
    + rewrite (bool_decide_eq_false_2 (Str "Control" = c)) by done.
      by rewrite (bool_decide_eq_false_2 (c = Str "Control")).
Qed.

(** The design of a variable other than the grouping trait, spelled out. *)
Lemma llr_design_inv (facts : frame) (dep var : string)
    (vd : list dict_row) (y : list Z) (X : list (list cell)) :
  var ≠ dep →
  llr_design facts dep vd var = Ok (Some (y, X)) →
  ∃ depcol varcol cat,
    getcol facts dep = Ok depcol ∧ getcol facts var = Ok varcol
    ∧ is_categorical vd var = Ok cat
    ∧ both_observed depcol varcol ≠ []
    ∧ y = cat_codes (unique_sorted depcol) (both_observed depcol varcol).*1
    ∧ X = (if cat
           then (removelast (get_dummies var (both_observed depcol varcol).*2)).*2
           else [(both_observed depcol varcol).*2])
          ++ [replicate (length (both_observed depcol varcol)) (Num 1)].
Proof.
  intros Hne. unfold llr_design.
  destruct (getcol facts dep) as [depcol|e]; [|done].
  destruct (getcol facts var) as [varcol|e]; [|done]. cbn [bind].
  set (rows := both_observed depcol varcol).
  case_bool_decide as Hrows; [done|].
  destruct (is_categorical vd var) as [cat|e]; [|done]. cbn [bind].
  assert (Hnil : rows ≠ []) by (by destruct rows).
  destruct cat.
  - assert (Hgd : get_dummies var rows.*2 ≠ []).
    { unfold get_dummies. destruct rows as [|[a b] rows'] eqn:Hr; [done|].
      assert (Hb : b ∈ unique_sorted ((a, b) :: rows').*2).
      { apply elem_of_unique_sorted. split; [left|].
        assert (Hin : (a, b) ∈ both_observed depcol varcol)
          by (fold rows; rewrite Hr; left).
        apply list_elem_of_filter in Hin as [Hn _].
        apply andb_true_iff in Hn as [_ Hn]. simpl in Hn. by intros ->. }
      destruct (unique_sorted _); [by apply elem_of_nil in Hb|done]. }
    destruct (get_dummies var rows.*2) as [|g gs] eqn:Hg; [done|].
    rewrite removelast_cons. unfold lookup_col. cbn [List.find fst].
    rewrite bool_decide_eq_true_2 by done. cbn [bind snd].
    intros [= <- <-]. exists depcol, varcol, true.
    repeat split; try done. f_equal. fold rows. rewrite Hg.
    rewrite filter_cons, decide_False by (simpl; tauto).
    f_equal. apply filter_all. intros p Hp%elem_of_removelast.
    rewrite <- Hg in Hp. apply get_dummies_names in Hp as [l Hl].
    rewrite Hl. done.
  - unfold lookup_col. cbn [List.find fst].
    rewrite bool_decide_eq_true_2 by done. cbn [bind snd].
    intros [= <- <-]. exists depcol, varcol, false.
    repeat split; try done. f_equal.
    rewrite filter_cons, decide_False by (simpl; tauto).
    rewrite filter_cons, decide_True by (simpl; congruence). done.
Qed.

(** X9. Regression loop of PheWAS_py.ipynb, on a cohort whose grouping column
    holds "Case" and "Control" only, both present: for a variable other than
    the grouping trait with at least one usable row, the outcome handed to
    [Logit] is 0 for a "Case" row and 1 for a "Control" row, one entry for
    each row where the variable is observed, in the order of the cohort; and
    every column of the design has as many entries as the outcome. *)
Theorem llr_outcome_codes_case_as_zero
    (facts : frame) (dep var : string) (vd : list dict_row)
    (depcol : list cell) (y : list Z) (X : list (list cell)) :
  var ≠ dep →
  getcol facts dep = Ok depcol →
  Str "Case" ∈ depcol → Str "Control" ∈ depcol →
  (∀ c, c ∈ depcol → c = Str "Case" ∨ c = Str "Control") →
  llr_design facts dep vd var = Ok (Some (y, X)) →
  ∃ varcol, getcol facts var = Ok varcol
    ∧ y = (fun p => if bool_decide (p.1 = Str "Case") then 0 else 1)%Z
            <$> both_observed depcol varcol
    ∧ Forall (fun col => length col = length y) X.
Proof.
  intros Hne Hdep Hc Hk Hall Hd.
  destruct (llr_design_inv _ _ _ _ _ _ Hne Hd)
    as (depcol' & varcol & cat & Hdep' & Hvar & Hcat & Hnil & -> & ->).
  rewrite Hdep in Hdep'. injection Hdep' as <-.
  exists varcol. split; [done|].
  rewrite (unique_sorted_case_control depcol)
    by (try done; intros x Hx; destruct (Hall x Hx); auto).
  rewrite cat_codes_case_control. split.
  - rewrite <- list_fmap_compose. apply Forall_fmap_ext_1, Forall_forall.
    intros [a b] Hp. simpl.
    assert (Ha : a ∈ depcol).
    { unfold both_observed in Hp. apply list_elem_of_filter in Hp as [_ Hp].
      by apply elem_of_zip_l in Hp. }
    destruct (Hall a Ha) as [-> | ->]; done.
  - rewrite !length_fmap. apply Forall_app. split.
    + destruct cat.
      * apply Forall_fmap, Forall_forall. intros p Hp%elem_of_removelast.
        unfold get_dummies in Hp.
        apply list_elem_of_fmap in Hp as (l & -> & _). simpl.
        by rewrite !length_fmap.
      * apply Forall_singleton. by rewrite length_fmap.
    + apply Forall_singleton. by rewrite length_replicate.
Qed.

Lemma llr_outcome_codes_witness :
  ∃ varcol, getcol ex_two_groups "age" = Ok varcol
    ∧ [0; 1; 0]%Z
      = (fun p => if bool_decide (p.1 = Str "Case") then 0 else 1)%Z
          <$> both_observed
                [Str "Case"; Str "Control"; Str "Control"; Str "Case"] varcol
    ∧ Forall (fun col => length col = length [0; 1; 0]%Z)
        [[int 61; int 54; int 66]; [Num 1; Num 1; Num 1]].
Proof.
  apply (llr_outcome_codes_case_as_zero ex_two_groups "status" "age" ex_llr_dict).
  - done.
  - reflexivity.
  - apply (bool_decide_unpack _). vm_compute. exact I.
  - apply (bool_decide_unpack _). vm_compute. exact I.
  - apply Forall_forall. apply (bool_decide_unpack _). vm_compute. exact I.
  - vm_compute. reflexivity.
Defined.

(** X10. Regression loop of PheWAS_py.ipynb: for a categorical variable other
    than the grouping trait, the design handed to [Logit] holds one 0/1
    column for each observed level except the last one in sorted order, then
    the intercept column of ones. With a single observed level the design is
    the intercept alone. *)
Theorem llr_categorical_design_leaves_out_the_last_level
    (facts : frame) (dep var : string) (vd : list dict_row)
    (y : list Z) (X : list (list cell)) :
  var ≠ dep →
  is_categorical vd var = Ok true →
  llr_design facts dep vd var = Ok (Some (y, X)) →
  ∃ depcol varcol,
    getcol facts dep = Ok depcol ∧ getcol facts var = Ok varcol
    ∧ X = ((fun l => (fun c => if bool_decide (c = l) then Num 1 else Num 0)
                       <$> (both_observed depcol varcol).*2)
             <$> removelast (unique_sorted (both_observed depcol varcol).*2))
          ++ [replicate (length (both_observed depcol varcol)) (Num 1)]
    ∧ unique_sorted (both_observed depcol varcol).*2 ≠ []
    ∧ (length (unique_sorted (both_observed depcol varcol).*2) = 1%nat →
       X = [replicate (length (both_observed depcol varcol)) (Num 1)]).
Proof.
  intros Hne Hcat Hd.
  destruct (llr_design_inv _ _ _ _ _ _ Hne Hd)
    as (depcol & varcol & cat & Hdep & Hvar & Hcat' & Hnil & -> & ->).
  rewrite Hcat in Hcat'. injection Hcat' as <-.
  exists depcol, varcol. split; [done|]. split; [done|].
  set (rows := both_observed depcol varcol) in *.
  assert (HX : (removelast (get_dummies var rows.*2)).*2
               = (fun l => (fun c => if bool_decide (c = l) then Num 1 else Num 0)
                             <$> rows.*2) <$> removelast (unique_sorted rows.*2)).
  { unfold get_dummies. rewrite removelast_fmap, <- list_fmap_compose. done. }
  rewrite HX. split; [done|]. split.
  - destruct rows as [|[a b] rows'] eqn:Hr; [done|].
    assert (Hb : b ∈ unique_sorted ((a, b) :: rows').*2).
    { apply elem_of_unique_sorted. split; [left|].
      assert (Hin : (a, b) ∈ both_observed depcol varcol)
        by (fold rows; rewrite Hr; left).
      apply list_elem_of_filter in Hin as [Hn _].
      apply andb_true_iff in Hn as [_ Hn]. simpl in Hn. by intros ->. }
    intros Hemp. rewrite Hemp in Hb. by apply elem_of_nil in Hb.
  - intros Hone. destruct (unique_sorted rows.*2) as [|l [|l' ls]]; done.
Qed.

Lemma llr_categorical_design_witness :
  ∃ depcol varcol,
    getcol ex_two_groups "status" = Ok depcol
    ∧ getcol ex_two_groups "smoker_Yes" = Ok varcol
    ∧ [[Num 1; Num 1; Num 1; Num 1]]
      = ((fun l => (fun c => if bool_decide (c = l) then Num 1 else Num 0)
                     <$> (both_observed depcol varcol).*2)
           <$> removelast (unique_sorted (both_observed depcol varcol).*2))
        ++ [replicate (length (both_observed depcol varcol)) (Num 1)]
    ∧ unique_sorted (both_observed depcol varcol).*2 ≠ []
    ∧ (length (unique_sorted (both_observed depcol varcol).*2) = 1%nat →
       [[Num 1; Num 1; Num 1; Num 1]]
       = [replicate (length (both_observed depcol varcol)) (Num 1)]).
Proof.
  apply (llr_categorical_design_leaves_out_the_last_level
           ex_two_groups "status" "smoker_Yes" ex_llr_dict [0; 1; 1; 0]%Z).
  - done.
  - reflexivity.
  - vm_compute. reflexivity.
Defined.

(** ** Exceptions that end a loop *)

Section LoopEnds.
Context {lib : StatsLib}.

Lemma llr_records_are_of_listed_names (facts : frame) (dep : string)
    (vd : list dict_row) (names : list string) (d : gmap string fval)
    (oe : option exn) (w : string) :
  for_each (llr_step facts dep vd) names ∅ = (d, oe) →
  w ∉ names → d !! w = None.
Proof.
  intros Hrun Hw. destruct (d !! w) as [v|] eqn:Hv; [|done]. exfalso.
  destruct (for_each_sound (llr_step facts dep vd) (llr_outcome facts dep vd)
              (llr_step_store facts dep vd) names ∅ d oe w v Hrun Hv)
    as [H0|(x & Hx & Hact)].
  - by rewrite lookup_empty in H0.
  - apply llr_outcome_key in Hact as ->. done.
Qed.

(** X11. Regression loop of PheWAS_py.ipynb: [Logit(...)] is called before the
    [try]. When it raises for a variable, whatever the exception, also one
    of the two that the [try] catches, the loop ends there with that
    exception: the dict holds what the variables before it recorded, and
    neither that variable nor any later one that was not screened before
    has a record. *)
Theorem llr_loop_ends_when_the_model_cannot_be_built
    (facts : frame) (dep : string) (vd : list dict_row)
    (l1 l2 : list string) (var : string) (d1 : gmap string fval)
    (y : list Z) (X : list (list cell)) (e : exn) :
  list_remove dep (varName <$> vd) = Ok (l1 ++ var :: l2) →
  for_each (llr_step facts dep vd) l1 ∅ = (d1, None) →
  llr_design facts dep vd var = Ok (Some (y, X)) →
  Logit y X = Raise e →
  dic_pvalues_llr facts dep vd = (d1, Some e)
  ∧ ∀ w, w ∉ l1 → d1 !! w = None.
Proof.
  intros Hrm Hl1 Hd HL. split.
  - unfold dic_pvalues_llr. rewrite Hrm, for_each_app, Hl1.
    cbn [for_each]. unfold llr_step. rewrite Hd. cbn [bind]. by rewrite HL.
  - intros w Hw. by eapply llr_records_are_of_listed_names.
Qed.

Lemma fisher_records_are_of_listed_names (facts_dummies : frame) (dep : string)
    (names : list pyobj) (d : gmap string fval) (oe : option exn) (k : string) :
  for_each (fisher_step facts_dummies dep) names ∅ = (d, oe) →
  is_Some (d !! k) →
  PyStr k ∈ names ∧ is_Some (columns facts_dummies !! k).
Proof.
  intros Hrun [v Hv].
  destruct (for_each_sound (fisher_step facts_dummies dep)
              (fisher_outcome facts_dummies dep)
              (fisher_step_store facts_dummies dep) names ∅ d oe k v Hrun Hv)
    as [H0|(x & Hx & Hact)].
  - by rewrite lookup_empty in H0.
  - apply fisher_outcome_key in Hact as [-> Hcol]. done.
Qed.

(** X12. Fisher loop of the first notebook: only the first 500 dummy names
    are screened, so a name listed only further down has no record and the
    names after the 500th change nothing; the cell never ends with
    AttributeError, which it catches around the whole loop, keeping the
    records made before it; and it ends as the loop of the other notebook
    ends on these 500 names in every other case. *)
Theorem fisher_101_screens_the_first_500_names
    (facts_dummies : frame) (dep : string) (names : list pyobj) :
  (dic_fisher_101 facts_dummies dep names).2 ≠ Some AttributeError
  ∧ (dic_fisher_101 facts_dummies dep names).1
    = (dic_fisher facts_dummies dep (take 500 names)).1
  ∧ ((dic_fisher facts_dummies dep (take 500 names)).2 ≠ Some AttributeError →
     dic_fisher_101 facts_dummies dep names
     = dic_fisher facts_dummies dep (take 500 names))
  ∧ (∀ k, is_Some ((dic_fisher_101 facts_dummies dep names).1 !! k) →
          PyStr k ∈ take 500 names)
  ∧ (∀ more, 500 ≤ length names →
             dic_fisher_101 facts_dummies dep (take 500 names ++ more)
             = dic_fisher_101 facts_dummies dep names).
Proof.
  assert (H1 : (dic_fisher_101 facts_dummies dep names).1
               = (dic_fisher facts_dummies dep (take 500 names)).1).
  { unfold dic_fisher_101.
    destruct (dic_fisher facts_dummies dep (take 500 names)) as [d [[]|]]; done. }
  split; [|split; [exact H1|split; [|split]]].
  - unfold dic_fisher_101.
    destruct (dic_fisher facts_dummies dep (take 500 names)) as [d [[]|]]; done.
  - unfold dic_fisher_101.
    destruct (dic_fisher facts_dummies dep (take 500 names)) as [d [[]|]]; done.
  - intros k Hk. rewrite H1 in Hk. unfold dic_fisher in Hk.
    destruct (for_each _ _ _) as [d oe] eqn:Hrun.
    by destruct (fisher_records_are_of_listed_names _ _ _ _ _ _ Hrun Hk).
  - intros more Hlen. unfold dic_fisher_101.
    rewrite take_app_le by (rewrite length_take; lia).
    by rewrite take_take, Nat.min_id.
Qed.

End LoopEnds.

Lemma llr_loop_ends_witness :
  dic_pvalues_llr (lib := rejecting_lib) ex_two_groups "status" ex_llr_dict
  = (<["age" := Fin (Q2Qc (1 # 8))]> ∅, Some LinAlgError)
  ∧ ∀ w, w ∉ ["age"%string] →
         (<["age" := Fin (Q2Qc (1 # 8))]> ∅ : gmap string fval) !! w = None.
Proof.
  apply (llr_loop_ends_when_the_model_cannot_be_built (lib := rejecting_lib)
           ex_two_groups "status" ex_llr_dict
           ["age"%string] ["sex_Male"%string] "smoker_Yes"
           (<["age" := Fin (Q2Qc (1 # 8))]> ∅)
           [0; 1; 1; 0]%Z [[Num 1; Num 1; Num 1; Num 1]] LinAlgError).
  - reflexivity.
  - reflexivity.
  - vm_compute. reflexivity.
  - reflexivity.
Defined.

(** the first notebook goes on after an AttributeError of the test, the
    other one stops *)
Example ex_fisher_101_catches_AttributeError :
  dic_fisher (lib := rejecting_lib) ex_one_group "status" [PyStr "smoker_Yes"]
  = (∅, Some AttributeError)
  ∧ dic_fisher_101 (lib := rejecting_lib) ex_one_group "status" [PyStr "smoker_Yes"]
    = (∅, None).
Proof. split; reflexivity. Qed.

(** ** Merging the two dicts *)

Section Merged.
Context {lib : StatsLib}.

Lemma mannwhitneyu_records_are_of_listed_names (facts_dummies : frame)
    (dep : string) (names : list string) (k : string) :
  is_Some ((dic_mannwhitneyu facts_dummies dep names).1 !! k) → k ∈ names.
Proof.
  unfold dic_mannwhitneyu.
  destruct (getcol facts_dummies dep) as [depcol|e]; simpl.
  - destruct (for_each _ _ _) as [d oe] eqn:Hrun. simpl. intros [v Hv].
    destruct (for_each_sound (mannwhitneyu_step facts_dummies depcol)
                (mannwhitneyu_outcome facts_dummies depcol)
                (mannwhitneyu_step_store facts_dummies depcol)
                names ∅ d oe k v Hrun Hv) as [H0|(x & Hx & Hact)].
    + by rewrite lookup_empty in H0.
    + by apply mannwhitneyu_outcome_key in Hact as ->.
  - rewrite lookup_empty. by intros [? ?].
Qed.

(** X13. The cell that merges the dicts of the two loops: every name of the
    merged dict is a continuous name that the Mann-Whitney loop recorded or
    a listed dummy name that is a column of the cohort matrix; a name that
    both loops recorded keeps the p-value of the Fisher loop, and every
    other record of either loop is kept as it is. *)
Theorem merged_dict_keeps_the_fisher_record
    (facts_dummies : frame) (dep : string) (continuous : list string)
    (dummies : list pyobj) (k : string) :
  dic_pvalues_merged facts_dummies dep continuous dummies !! k
  = match (dic_fisher facts_dummies dep dummies).1 !! k with
    | Some v => Some v
    | None => (dic_mannwhitneyu facts_dummies dep continuous).1 !! k
    end
  ∧ (is_Some (dic_pvalues_merged facts_dummies dep continuous dummies !! k) →
     k ∈ continuous
     ∨ (PyStr k ∈ dummies ∧ is_Some (columns facts_dummies !! k))).
Proof.
  assert (Hl : dic_pvalues_merged facts_dummies dep continuous dummies !! k
    = match (dic_fisher facts_dummies dep dummies).1 !! k with
      | Some v => Some v
      | None => (dic_mannwhitneyu facts_dummies dep continuous).1 !! k
      end).
  { unfold dic_pvalues_merged, merge_dicts. rewrite lookup_union.
    destruct ((dic_fisher _ _ _).1 !! k), ((dic_mannwhitneyu _ _ _).1 !! k); done. }
  split; [exact Hl|]. rewrite Hl.
  destruct ((dic_fisher facts_dummies dep dummies).1 !! k) as [v|] eqn:Hf.
  - intros _. right. unfold dic_fisher in Hf.
    destruct (for_each _ _ _) as [d oe] eqn:Hrun. simpl in Hf.
    eapply fisher_records_are_of_listed_names; [exact Hrun|by eexists].
  - intros Hm. left. by eapply mannwhitneyu_records_are_of_listed_names.
Qed.

End Merged.

(** both loops record under "sex_Male": the merged dict holds the Fisher
    p-value 1/4, not the Mann-Whitney p-value 1/2 *)
Example ex_merged_dict :
  dic_pvalues_merged (lib := checking_lib) ex_two_groups "status"
    ["age"; "sex_Male"]%string [PyStr "sex_Male"; PyStr "asthma_Yes"]
  = <["sex_Male" := Fin (Q2Qc (1 # 4))]> (<["age" := Fin (Q2Qc (1 # 2))]> ∅).
Proof. vm_compute. reflexivity. Qed.

(** ** The rows that get a text label *)

Lemma fval_ge_trans : Transitive fval_ge.
Proof.
  intros [| | |a] [| | |b] [| | |c]; unfold fval_ge; simpl; try done.
  rewrite !bool_decide_eq_true. intros Hab Hbc. by etrans.
Qed.

Lemma fval_ge_total : Total fval_ge.
Proof.
  intros [| | |a] [| | |b]; unfold fval_ge; simpl; auto.
  rewrite !bool_decide_eq_true. destruct (total Qcle a b); auto.
Qed.

Lemma fval_ge_refl (x : fval) : fval_ge x x.
Proof. by destruct (fval_ge_total x x). Qed.

Lemma fval_ge_not_gtb (t x : fval) : fval_ge t x → fval_gtb x t = false.
Proof.
  unfold fval_ge, fval_gtb. intros Hge.
  destruct x, t; try done; by rewrite Hge.
Qed.

Lemma fval_ge_notna (x t : fval) : fval_ge x t → t ≠ NaN → x ≠ NaN.
Proof. intros Hge Ht ->. by destruct t. Qed.

Lemma filter_none {A} (P : A → Prop) `{∀ x, Decision (P x)} (l : list A) :
  (∀ x, x ∈ l → ¬ P x) → filter P l = [].
Proof.
  induction l as [|x l IH]; [done|]. intros Hall.
  rewrite filter_cons, decide_False by (apply Hall; left).
  apply IH. intros; apply Hall; by right.
Qed.

Lemma filter_submseteq {A} (P : A → Prop) `{∀ x, Decision (P x)} (l k : list A) :
  l ⊆+ k → filter P l ⊆+ filter P k.
Proof.
  induction 1 as [|x l1 l2 _ IH|x y l|x l1 l2 _ IH|l1 l2 l3 _ IH1 _ IH2].
  - done.
  - rewrite !filter_cons. destruct (decide (P x)); [by constructor|done].
  - rewrite !filter_cons.
    destruct (decide (P x)), (decide (P y)); try done. apply submseteq_swap.
  - rewrite filter_cons. destruct (decide (P x)); [by apply submseteq_cons|done].
  - by etrans.
Qed.

Lemma length_filter_fmap {A B} (f : A → B) (P : B → Prop)
    `{∀ y, Decision (P y)} (l : list A) :
  length (filter (fun x => P (f x)) l) = length (filter P (f <$> l)).
Proof.
  induction l as [|x l IH]; [done|].
  rewrite fmap_cons, !filter_cons.
  destruct (decide (P (f x))); simpl; by rewrite IH.
Qed.

(** the sorted column around the threshold *)
Lemma sorted_around_threshold (L : list fval) (t : fval) :
  last (take 6 (merge_sort fval_ge L)) = Some t →
  ∃ above below,
    merge_sort fval_ge L = above ++ t :: below
    ∧ take 6 (merge_sort fval_ge L) = above ++ [t]
    ∧ length above ≤ 5
    ∧ (∀ x, x ∈ above → fval_ge x t)
    ∧ (∀ x, x ∈ t :: below → fval_ge t x).
Proof.
  intros [above Hab]%last_Some.
  pose proof (StronglySorted_merge_sort fval_ge
                (Transitive0 := fval_ge_trans) (Total0 := fval_ge_total) L) as Hs.
  set (S := merge_sort fval_ge L) in *.
  assert (HS : S = (above ++ [t]) ++ drop 6 S)
    by (by rewrite <- Hab, take_drop).
  exists above, (drop 6 S). split; [by rewrite <- app_assoc in HS|].
  split; [done|]. split.
  { assert (Hlen : length (take 6 S) ≤ 6) by (rewrite length_take; lia).
    rewrite Hab, length_app in Hlen. simpl in Hlen. lia. }
  rewrite HS in Hs. split.
  - intros x Hx. apply StronglySorted_app_1_l in Hs.
    eapply StronglySorted_app_1_elem_of; [exact Hs|done|left].
  - intros x [->|Hx]%elem_of_cons; [apply fval_ge_refl|].
    eapply StronglySorted_app_1_elem_of; [exact Hs| |done].
    apply elem_of_app. right. left.
Qed.

Lemma threshold_bounds_the_labels (L : list fval) (t : fval) :
  last (take 6 (merge_sort fval_ge L)) = Some t →
  t ∈ L ∧ length (filter (fun x => fval_gtb x t = true) L) ≤ 5.
Proof.
  intros Hlast.
  destruct (sorted_around_threshold L t Hlast)
    as (above & below & HS & _ & Hlen & _ & Hbelow).
  pose proof (merge_sort_Permutation fval_ge L) as Hperm. split.
  - rewrite <- Hperm, HS. apply elem_of_app. right. left.
  - rewrite <- Hperm, HS, filter_app, length_app.
    rewrite (filter_none _ (t :: below)).
    + pose proof (length_filter (fun x => fval_gtb x t = true) above).
      simpl. lia.
    + intros x Hx. rewrite (fval_ge_not_gtb t x) by auto. done.
Qed.

(** X14. The plot cell: the threshold for the text labels is the last of the
    six largest values of [log_p], and the cell raises IndexError exactly
    on an empty table. Otherwise the threshold is the [log_p] of a row of
    the table, that row gets no label, and at most five of the rows that
    the loop over the groups visits get one, however large the table. *)
Theorem at_most_five_rows_are_labelled (df : list result_row) :
  match threshold_top_values (log_p <$> df) with
  | Raise e => e = IndexError ∧ df = []
  | Ok t =>
      (∃ r, r ∈ df ∧ log_p r = t ∧ r ∉ labelled t df)
      ∧ ∀ rows, rows ⊆+ df → length (labelled t rows) ≤ 5
  end.
Proof.
  unfold threshold_top_values.
  destruct (last (take 6 (merge_sort fval_ge (log_p <$> df)))) as [t|] eqn:Hlast.
  - destruct (threshold_bounds_the_labels _ _ Hlast) as [Hin Hlen]. split.
    + apply list_elem_of_fmap in Hin as (r & -> & Hr). exists r.
      split; [done|]. split; [done|]. unfold labelled.
      rewrite list_elem_of_filter. intros [Hgt _].
      by rewrite (fval_ge_not_gtb _ _ (fval_ge_refl (log_p r))) in Hgt.
    + intros rows Hsub. unfold labelled.
      pose proof (length_filter_fmap log_p (fun x => fval_gtb x t = true) rows)
        as Heq.
      cbv beta in Heq. rewrite Heq.
      etrans; [|exact Hlen]. apply submseteq_length, filter_submseteq.
      by apply fmap_submseteq.
  - split; [done|]. apply last_None in Hlast.
    apply take_nil_inv in Hlast as [?|Hnil]; [done|].
    pose proof (merge_sort_Permutation fval_ge (log_p <$> df)) as Hperm.
    rewrite Hnil in Hperm. apply Permutation_nil_l in Hperm.
    symmetry in Hperm. by apply fmap_nil_inv in Hperm.
Qed.

(** a column with an undefined value and fewer than six defined ones *)
Lemma undefined_threshold (L : list fval) :
  NaN ∈ L → length (filter (fun x => x ≠ NaN) L) < 6 →
  last (take 6 (merge_sort fval_ge L)) = Some NaN.
Proof.
  intros Hnan Hfew.
  pose proof (merge_sort_Permutation fval_ge L) as Hperm.
  destruct (last (take 6 (merge_sort fval_ge L))) as [t|] eqn:Hlast.
  - destruct (decide (t = NaN)) as [->|Ht]; [done|]. exfalso.
    destruct (sorted_around_threshold L t Hlast)
      as (above & below & HS & Htake & Hlen & Habove & _).
    assert (Hall : ∀ x, x ∈ above ++ [t] → x ≠ NaN).
    { intros x [Hx|Hx%list_elem_of_singleton]%elem_of_app; [|by subst].
      eapply fval_ge_notna; eauto. }
    rewrite <- Hperm, HS in Hfew.
    replace (above ++ t :: below) with ((above ++ [t]) ++ below) in Hfew
      by (by rewrite <- app_assoc).
    rewrite filter_app, (filter_all _ (above ++ [t])) in Hfew by done.
    rewrite !length_app in Hfew. simpl in Hfew.
    assert (Hlt : length (take 6 (merge_sort fval_ge L)) < 6)
      by (rewrite Htake, length_app; simpl; lia).
    rewrite length_take in Hlt.
    assert (Hbelow : below = []).
    { apply nil_length_inv.
      assert (Hl : length (take 6 (merge_sort fval_ge L))
                   = length (merge_sort fval_ge L))
        by (rewrite length_take; lia).
      rewrite Htake in Hl. rewrite HS in Hl.
      rewrite !length_app in Hl. simpl in Hl. lia. }
    subst below. rewrite <- Hperm, HS in Hnan. by apply Hall in Hnan.
  - exfalso. apply last_None in Hlast.
    apply take_nil_inv in Hlast as [?|Hnil]; [done|].
    rewrite Hnil in Hperm. apply Permutation_nil_l in Hperm.
    rewrite <- Hperm in Hnan. by apply elem_of_nil in Hnan.
Qed.

Lemma label_texts_101_undefined_threshold (rows : list (nat * result_row))
    (pair_ind : nat) :
  label_texts_101 NaN rows pair_ind = [].
Proof.
  induction rows as [|[ind r] rows IH]; [done|].
  cbn [label_texts_101].
  replace (fval_gtb (log_p r) NaN) with false by (by destruct (log_p r)).
  apply IH.
Qed.

Section Labels101.
Context {lib : StatsLib}.

Lemma log_p_of_df_results_101 (n : nat) (J : list joined_row) :
  log_p <$> df_results_101 (corrected_row n <$> J)
  = (fun j => replace_inf (neg_log10 (jpvalues j)))
      <$> filter (fun j => isna (jpvalues j) = false) J.
Proof.
  unfold df_results_101. induction J as [|j J IH]; [done|].
  rewrite fmap_cons, !filter_cons. cbn [corrected_row pvalues].
  destruct (decide (isna (jpvalues j) = false)); [|exact IH].
  rewrite !fmap_cons. f_equal. exact IH.
Qed.

Lemma defined_log_p_count (J : list joined_row) :
  length (filter (fun x => x ≠ NaN)
            ((fun j => replace_inf (neg_log10 (jpvalues j)))
               <$> filter (fun j => isna (jpvalues j) = false) J))
  = length (filter (fun j => positive_pvalue (jpvalues j) = true) J).
Proof.
  induction J as [|j J IH]; [done|].
  rewrite !(filter_cons _ j).
  destruct (jpvalues j) as [| | |q] eqn:Hq; simpl; rewrite ?Hq; simpl;
    try exact IH.
  destruct (bool_decide (0 < q)%Qc); [|destruct (bool_decide (q = 0)%Qc)];
    simpl; try exact IH.
  f_equal. exact IH.
Qed.

(** X15. First notebook: its plotted table keeps the rows whose p-value is 0,
    with an undefined [log_p]. When the joined table holds such a row and
    fewer than six rows with a finite p-value above 0, the threshold for
    the labels is NaN and no row is labelled, whatever its [log_p]. In the
    other two notebooks these rows are dropped first and the threshold is
    never NaN. *)
Theorem zero_pvalue_among_few_rows_leaves_no_label
    (variablesDict : list joined_row) (j0 : joined_row) :
  j0 ∈ variablesDict → jpvalues j0 = Fin 0 →
  length (filter (fun j => positive_pvalue (jpvalues j) = true) variablesDict) < 6 →
  threshold_top_values (log_p <$> df_results_101 (add_p_adj_log_p variablesDict))
  = Ok NaN
  ∧ (∀ rows pair_ind, label_texts_101 NaN rows pair_ind = [])
  ∧ (∀ df, labelled NaN df = [])
  ∧ (∀ t, threshold_top_values (log_p <$> df_results (add_p_adj_log_p variablesDict))
          = Ok t → t ≠ NaN).
Proof.
  intros Hj0 Hp0 Hfew. split; [|split; [|split]].
  - unfold threshold_top_values.
    change (add_p_adj_log_p variablesDict)
      with (corrected_row (length variablesDict) <$> variablesDict).
    rewrite (log_p_of_df_results_101 (length variablesDict) variablesDict).
    rewrite undefined_threshold; [done| |by rewrite defined_log_p_count].
    apply list_elem_of_fmap. exists j0. split.
    + rewrite Hp0. reflexivity.
    + apply list_elem_of_filter. by rewrite Hp0.
  - apply label_texts_101_undefined_threshold.
  - intros df. unfold labelled. apply filter_none. intros r _.
    by destruct (log_p r).
  - intros t Ht. unfold threshold_top_values in Ht.
    destruct (last _) as [t'|] eqn:Hlast; [|done]. injection Ht as ->.
    destruct (threshold_bounds_the_labels _ _ Hlast) as [Hin _].
    apply list_elem_of_fmap in Hin as (r & -> & Hr).
    apply df_results_positive in Hr as (j & q & _ & _ & _ & ->). done.
Qed.

End Labels101.

Lemma zero_pvalue_among_few_rows_witness :
  threshold_top_values
    (log_p <$> df_results_101 (add_p_adj_log_p (lib := checking_lib) ex_joined))
  = Ok NaN
  ∧ (∀ rows pair_ind, label_texts_101 NaN rows pair_ind = [])
  ∧ (∀ df, labelled NaN df = [])
  ∧ (∀ t, threshold_top_values
            (log_p <$> df_results (add_p_adj_log_p (lib := checking_lib) ex_joined))
          = Ok t → t ≠ NaN).
Proof.
  apply (zero_pvalue_among_few_rows_leaves_no_label (lib := checking_lib)
           ex_joined ex_zero_row).
  - unfold ex_joined, ex_zero_row. right. right. right. left.
  - reflexivity.
  - vm_compute. lia.
Defined.

(** X16. First notebook, the labels of one group: the texts are those of the
    rows above the threshold, in order, each at [ind + 3]; the shift of
    plus or minus 1.1 alternates from one labelled row to the next,
    starting with plus, whatever the number of unlabelled rows between
    them. *)
Theorem label_shift_alternates_over_the_labelled_rows
    (threshold : fval) (rows : list (nat * result_row)) (pair_ind : nat) :
  label_texts_101 threshold rows pair_ind
  = imap (fun i => label_text_101 (pair_ind + i))
      (filter (fun p => fval_gtb (log_p p.2) threshold = true) rows)
  ∧ shift_of 0 = Q2Qc (11 # 10)
  ∧ ∀ i, shift_of (S i) = (- shift_of i)%Qc.
Proof.
  split; [|split; [done|]].
  - revert pair_ind. induction rows as [|[ind r] rows IH]; intros k; [done|].
    cbn [label_texts_101]. rewrite filter_cons. simpl.
    destruct (fval_gtb (log_p r) threshold) eqn:Hgt.
    + rewrite decide_True by done. rewrite imap_cons. f_equal.
      * unfold label_text_101. simpl. by rewrite Nat.add_0_r.
      * rewrite IH. apply imap_ext. intros i p _. simpl.
        by rewrite Nat.add_succ_r.
    + rewrite decide_False by done. apply IH.
  - intros i. unfold shift_of. rewrite Nat.even_succ, <- Nat.negb_even.
    destruct (Nat.even i); simpl; [done|]. by rewrite Qcopp_involutive.
Qed.

(** * A categorical variable with a single observed value *)

Example ex_filter_cell_of_the_raw_cohort :
  filter_cell ex_raw_cohort "status" = Ok ex_filtered_cohort.
Proof. vm_compute. reflexivity. Qed.

Example ex_indicators_of_the_filtered_cohort :
  get_dummies_drop_first "sex" [Str "Male"; Str "Female"; Str "Female"; Str "Male"]
  = [(Dummy "sex" (Str "Male"), [Num 1; Num 0; Num 0; Num 1])]
  ∧ get_dummies_drop_first "smoker" [Str "No"; Str "No"; Str "No"; Str "No"]
    = [].
Proof. split; vm_compute; reflexivity. Qed.

(** a completed filter cell leaves both groups, and nothing else, in the
    grouping column *)
Lemma filter_cell_two_groups (facts0 facts : frame) (dep : string) :
  filter_cell facts0 dep = Ok facts →
  ∃ depcol, getcol facts dep = Ok depcol
    ∧ (∀ c, c ∈ depcol → c = Str "Case" ∨ c = Str "Control")
    ∧ Str "Case" ∈ depcol ∧ Str "Control" ∈ depcol.
Proof.
  unfold filter_cell, cohort_filter, mask_dependent_var_name.
  destruct (getcol facts0 dep) as [col|e] eqn:Hcol; [|done]. cbn [bind].
  assert (Hcol' : getcol (loc_rows (isin kept_categories <$> col) facts0) dep
                  = Ok (filter (fun c => isin kept_categories c = true) col)).
  { unfold getcol in *. simpl. rewrite lookup_fmap.
    destruct (columns facts0 !! dep) as [c|]; [|done].
    injection Hcol as ->. simpl. by rewrite select_fmap_filter. }
  rewrite Hcol'. cbn [bind].
  destruct (format_two _) as [[]|e] eqn:Hf; [|done]. cbn [bind].
  intros [= <-]. eexists. split; [exact Hcol'|].
  assert (Hall : ∀ c, c ∈ filter (fun c => isin kept_categories c = true) col →
                      c = Str "Case" ∨ c = Str "Control").
  { intros c [Hc _]%list_elem_of_filter. by apply isin_kept. }
  split; [done|]. apply two_values_both; [done|].
  apply format_two_ok in Hf. unfold value_counts in Hf.
  by rewrite length_fmap in Hf.
Qed.

Section SingleValue.
Context {lib : StatsLib}.

Lemma mannwhitneyu_records_have_columns (facts_dummies : frame)
    (dep : string) (names : list string) (k : string) :
  is_Some ((dic_mannwhitneyu facts_dummies dep names).1 !! k) →
  is_Some (columns facts_dummies !! k).
Proof.
  unfold dic_mannwhitneyu.
  destruct (getcol facts_dummies dep) as [depcol|e]; simpl.
  - destruct (for_each _ _ _) as [d oe] eqn:Hrun. simpl. intros [v Hv].
    destruct (for_each_sound (mannwhitneyu_step facts_dummies depcol)
                (mannwhitneyu_outcome facts_dummies depcol)
                (mannwhitneyu_step_store facts_dummies depcol)
                names ∅ d oe k v Hrun Hv) as [H0|(x & Hx & Hact)].
    + by rewrite lookup_empty in H0.
    + pose proof (mannwhitneyu_outcome_key _ _ _ _ _ Hact) as ->.
      unfold mannwhitneyu_outcome, getcol in Hact.
      destruct (columns facts_dummies !! x); [done|discriminate Hact].
  - rewrite lookup_empty. by intros [? ?].
Qed.

Lemma fisher_records_have_columns (facts_dummies : frame) (dep : string)
    (names : list pyobj) (k : string) :
  is_Some ((dic_fisher facts_dummies dep names).1 !! k) →
  is_Some (columns facts_dummies !! k).
Proof.
  unfold dic_fisher. destruct (for_each _ _ _) as [d oe] eqn:Hrun. simpl.
  intros Hk. by destruct (fisher_records_are_of_listed_names _ _ _ _ _ _ Hrun Hk).
Qed.

Lemma dic_fisher_101_dict (facts_dummies : frame) (dep : string)
    (names : list pyobj) :
  (dic_fisher_101 facts_dummies dep names).1
  = (dic_fisher facts_dummies dep (take 500 names)).1.
Proof.
  unfold dic_fisher_101.
  destruct (dic_fisher facts_dummies dep (take 500 names)) as [d [[]|]]; done.
Qed.

(** the table of an indicator column against the two groups *)
Lemma indicator_table_shape (v : string) (c depcol : list cell)
    (d : colname * list cell) :
  d ∈ get_dummies_drop_first v c →
  length c = length depcol →
  (∀ x, x ∈ depcol → x = Str "Case" ∨ x = Str "Control") →
  Str "Case" ∈ depcol → Str "Control" ∈ depcol →
  shape (crosstab d.2 depcol) = (2, 2)%nat.
Proof.
  intros Hd Hlen Hall Hcase Hcontrol.
  destruct (get_dummies_drop_first_values v c d Hd) as (Hlen' & Hvals & H1 & H0).
  assert (Hobs : both_observed d.2 depcol = zip d.2 depcol).
  { unfold both_observed. apply filter_all. intros [x y] Hxy. simpl.
    apply elem_of_zip_l in Hxy as Hx. apply elem_of_zip_r in Hxy as Hy.
    simpl in *. destruct (Hvals x Hx) as [-> | ->];
      destruct (Hall y Hy) as [-> | ->]; done. }
  unfold shape, crosstab. simpl. rewrite Hobs.
  rewrite fst_zip, snd_zip by lia. f_equal.
  - apply (length_two_values (Num 1) (Num 0));
      [apply NoDup_unique_sorted| |apply Num_1_ne_0].
    intros x. rewrite elem_of_unique_sorted. split.
    + intros [Hx _]. by apply Hvals.
    + intros [-> | ->]; done.
  - rewrite unique_sorted_case_control; [done..|].
    intros x Hx. destruct (Hall x Hx); auto.
Qed.

(** C3. Fisher notebooks, after the filter cell has completed (the cohort
    holds "Case" and "Control" subjects only, and both), for a categorical
    variable with a single distinct observed value in that cohort. The
    names handed to the loop name indicator columns of the matrix only, and
    [key], the dummy name that the dictionary holds for the variable, names
    no column of another variable. Then:
    [get_dummies(..., drop_first=True)] makes no indicator column from the
    variable, so its dummy name names no column and the loop skips it
    without building a table or calling the test; every table the loop does
    build has shape (2, 2), so neither the NaN branch of the guard nor a test
    on a degenerate table is ever reached; the loop of either notebook ends
    without an exception when the test answers on the tables of shape
    (2, 2); and the merged dict has no record under the name of the
    variable, whose joined p-value is NaN. *)
Theorem C3_single_valued_variable_is_undefined_without_a_crash
    (facts0 facts facts_dummies : frame) (dependent_var_name var : string)
    (vcol : list cell) (a : cell)
    (dummy_categorical_varnames : list pyobj) (key : pyobj) :
  filter_cell facts0 dependent_var_name = Ok facts →
  rectangular facts →
  getcol facts_dummies dependent_var_name = getcol facts dependent_var_name →
  columns facts !! var = Some vcol →
  unique_sorted vcol = [a] →
  (∀ k, PyStr k ∈ dummy_categorical_varnames →
        ∃ v, indicator_column_of facts facts_dummies v k) →
  (∀ k, key = PyStr k → indicator_column_of facts facts_dummies var k) →
  (∀ ct, shape ct = (2, 2)%nat → ∃ r, fisher_exact ct = Ok r) →
  get_dummies_drop_first var vcol = []
  ∧ (∀ dic, fisher_step facts_dummies dependent_var_name key dic = Ok dic)
  ∧ (∀ k col, PyStr k ∈ dummy_categorical_varnames →
       columns facts_dummies !! k = Some col →
       ∃ depcol, getcol facts_dummies dependent_var_name = Ok depcol
                 ∧ shape (crosstab col depcol) = (2, 2)%nat)
  ∧ (∃ dic, dic_fisher facts_dummies dependent_var_name
              dummy_categorical_varnames = (dic, None))
  ∧ (∃ dic, dic_fisher_101 facts_dummies dependent_var_name
              dummy_categorical_varnames = (dic, None))
  ∧ ∀ continuous_varnames,
      (∀ k, key = PyStr k →
         dic_pvalues_merged facts_dummies dependent_var_name
           continuous_varnames dummy_categorical_varnames !! k = None
         ∧ dic_pvalues_merged_101 facts_dummies dependent_var_name
             continuous_varnames dummy_categorical_varnames !! k = None)
      ∧ joined_pvalue
          (dic_pvalues_merged facts_dummies dependent_var_name
             continuous_varnames dummy_categorical_varnames) key = NaN
      ∧ joined_pvalue
          (dic_pvalues_merged_101 facts_dummies dependent_var_name
             continuous_varnames dummy_categorical_varnames) key = NaN.
Proof.
  intros Hfilter Hrect Hdep Hvar Hone Hnames Hkey Htest.
  destruct (filter_cell_two_groups _ _ _ Hfilter)
    as (depcol & Hdc & Hall & Hcase & Hcontrol).
  rewrite Hdc in Hdep.
  assert (Hdepcol : columns facts !! dependent_var_name = Some depcol).
  { unfold getcol in Hdc.
    destruct (columns facts !! dependent_var_name); [congruence|done]. }
  assert (Hnone : get_dummies_drop_first var vcol = []).
  { unfold get_dummies_drop_first, get_dummies. by rewrite Hone. }
  assert (Hnocol : ∀ k, key = PyStr k → columns facts_dummies !! k = None).
  { intros k Hk.
    destruct (columns facts_dummies !! k) as [col|] eqn:Hc; [exfalso|done].
    destruct (Hkey k Hk col Hc) as (c & d & Hc' & Hd & _).
    rewrite Hvar in Hc'. injection Hc' as <-.
    rewrite Hnone in Hd. by apply elem_of_nil in Hd. }
  assert (Hshape : ∀ k col, PyStr k ∈ dummy_categorical_varnames →
            columns facts_dummies !! k = Some col →
            shape (crosstab col depcol) = (2, 2)%nat).
  { intros k col Hk Hc. destruct (Hnames k Hk) as [v Hv].
    destruct (Hv col Hc) as (c & d & Hc' & Hd & <-).
    apply (indicator_table_shape v c); try done.
    by rewrite (Hrect _ _ Hc'), (Hrect _ _ Hdepcol). }
  assert (Hloop : ∀ l, (∀ x, x ∈ l → x ∈ dummy_categorical_varnames) →
            ∃ dic, dic_fisher facts_dummies dependent_var_name l = (dic, None)).
  { intros l Hl. unfold dic_fisher.
    apply (for_each_total (fisher_step facts_dummies dependent_var_name)
             (fisher_outcome facts_dummies dependent_var_name)
             (fisher_step_store facts_dummies dependent_var_name)).
    intros x Hx. unfold fisher_outcome. destruct x as [k| |]; [|eauto..].
    destruct (columns facts_dummies !! k) as [col|] eqn:Hc; [|eauto].
    rewrite Hdep. cbn [bind].
    assert (Hs := Hshape k col (Hl _ Hx) Hc).
    rewrite bool_decide_eq_false_2 by (rewrite Hs; done).
    destruct (Htest _ Hs) as [r ->]. simpl. eauto. }
  assert (Hrec : ∀ continuous_varnames k, key = PyStr k →
            dic_pvalues_merged facts_dummies dependent_var_name
              continuous_varnames dummy_categorical_varnames !! k = None
            ∧ dic_pvalues_merged_101 facts_dummies dependent_var_name
                continuous_varnames dummy_categorical_varnames !! k = None).
  { intros cont k Hk. apply Hnocol in Hk.
    assert (Hmw : (dic_mannwhitneyu facts_dummies dependent_var_name cont).1
                    !! k = None).
    { apply eq_None_not_Some. intros H%mannwhitneyu_records_have_columns.
      rewrite Hk in H. by destruct H. }
    assert (Hf : ∀ l, (dic_fisher facts_dummies dependent_var_name l).1
                        !! k = None).
    { intros l. apply eq_None_not_Some. intros H%fisher_records_have_columns.
      rewrite Hk in H. by destruct H. }
    unfold dic_pvalues_merged, dic_pvalues_merged_101, merge_dicts.
    rewrite !lookup_union_None, dic_fisher_101_dict. auto. }
  split; [done|]. split.
  { intros dic. destruct key as [k| |]; [|done..]. simpl.
    by rewrite (Hnocol k eq_refl). }
  split; [by eauto|]. split; [by apply Hloop|]. split.
  { destruct (Hloop (take 500 dummy_categorical_varnames)) as [dic Hdic].
    - intros x (i & Hi & _)%elem_of_take. by eapply list_elem_of_lookup_2.
    - exists dic. unfold dic_fisher_101. by rewrite Hdic. }
  intros cont. split; [by apply Hrec|].
  destruct key as [k| |]; [|done..]. simpl.
  destruct (Hrec cont k eq_refl) as [-> ->]. done.
Qed.

End SingleValue.

Lemma ex_filtered_cohort_rectangular : rectangular ex_filtered_cohort.
Proof.
  intros name col. unfold ex_filtered_cohort. simpl.
  rewrite !lookup_insert, lookup_empty.
  repeat case_decide; intros [= <-]; reflexivity.
Qed.

Lemma C3_witness :
  get_dummies_drop_first "smoker" [Str "No"; Str "No"; Str "No"; Str "No"] = []
  ∧ (∀ dic, fisher_step (lib := checking_lib) ex_facts_dummies "status"
              (PyFloat NaN) dic = Ok dic)
  ∧ (∀ k col, PyStr k ∈ ex_dummy_names →
       columns ex_facts_dummies !! k = Some col →
       ∃ depcol, getcol ex_facts_dummies "status" = Ok depcol
                 ∧ shape (crosstab col depcol) = (2, 2)%nat)
  ∧ (∃ dic, dic_fisher (lib := checking_lib) ex_facts_dummies "status"
              ex_dummy_names = (dic, None))
  ∧ (∃ dic, dic_fisher_101 (lib := checking_lib) ex_facts_dummies "status"
              ex_dummy_names = (dic, None))
  ∧ ∀ continuous_varnames,
      (∀ k, PyFloat NaN = PyStr k →
         dic_pvalues_merged (lib := checking_lib) ex_facts_dummies "status"
           continuous_varnames ex_dummy_names !! k = None
         ∧ dic_pvalues_merged_101 (lib := checking_lib) ex_facts_dummies
             "status" continuous_varnames ex_dummy_names !! k = None)
      ∧ joined_pvalue
          (dic_pvalues_merged (lib := checking_lib) ex_facts_dummies "status"
             continuous_varnames ex_dummy_names) (PyFloat NaN) = NaN
      ∧ joined_pvalue
          (dic_pvalues_merged_101 (lib := checking_lib) ex_facts_dummies
             "status" continuous_varnames ex_dummy_names) (PyFloat NaN) = NaN.
Proof.
  apply (C3_single_valued_variable_is_undefined_without_a_crash
           (lib := checking_lib) ex_raw_cohort ex_filtered_cohort
           ex_facts_dummies "status" "smoker"
           [Str "No"; Str "No"; Str "No"; Str "No"] (Str "No")).
  - vm_compute. reflexivity.
  - apply ex_filtered_cohort_rectangular.
  - reflexivity.
  - reflexivity.
  - vm_compute. reflexivity.
  - intros k [[= ->]|Hk]%elem_of_cons.
    + exists "sex"%string. intros col Hc.
      assert (Hsex : columns ex_facts_dummies !! "sex_Male"
                     = Some [Num 1; Num 0; Num 0; Num 1]) by reflexivity.
      rewrite Hsex in Hc. injection Hc as <-.
      exists [Str "Male"; Str "Female"; Str "Female"; Str "Male"],
             (Dummy "sex" (Str "Male"), [Num 1; Num 0; Num 0; Num 1]).
      split; [reflexivity|]. split; [|reflexivity]. vm_compute. left.
    + apply elem_of_cons in Hk as [Hk|Hk]; [discriminate Hk|].
      by apply elem_of_nil in Hk.
  - intros k Hk. discriminate Hk.
  - intros ct Hs. simpl. unfold is_2x2.
    rewrite bool_decide_eq_true_2 by done. eauto.
Defined.
